(** * Resource handlers of the azurerm provider: a shallow embedding

    The handlers of this repository are sequential Go functions that read a
    local [ResourceData] container, talk to a remote management API through
    SDK clients and take a process-wide named lock around read-modify-write
    sections.  They are embedded as follows.

    - Local state ([d *pluginsdk.ResourceData]) is passed explicitly: a
      handler takes [d] and returns the updated [d] with its [error].
    - Everything shared (the lock registry and the remote API) is reached
      through events of a small program monad [Prog]; one interpreter runs a
      handler alone against a remote store, another one interleaves several
      handlers over the same store.
    - Go strings are byte strings ([string]); [nil]-able pointers are
      [option]; [error] is [option] of an inductive type with one
      constructor per error site. *)

From Stdlib Require Import ZArith Ascii String List Bool Lia.
From stdpp Require Import base option list strings gmap fin_maps.

Open Scope string_scope.
Open Scope list_scope.

(** ** Go's [strings] and [fmt] on the shapes the handlers use *)

Module GoStrings.

(** [strings.Split(s, sep)] for a one-byte separator: the substrings
    between the separators, in order; a string without the separator
    (the empty string too) gives one element. *)
Fixpoint Split (s : string) (sep : ascii) : list string :=
  match s with
  | EmptyString => [EmptyString]
  | String c rest =>
      if Ascii.eqb c sep then EmptyString :: Split rest sep
      else match Split rest sep with
           | hd :: tl => String c hd :: tl
           | [] => [String c EmptyString]
           end
  end.

(** [strings.Contains(s, string(c))] for one byte. *)
Fixpoint ContainsByte (s : string) (c : ascii) : bool :=
  match s with
  | EmptyString => false
  | String x rest => Ascii.eqb x c || ContainsByte rest c
  end.

(** The separator of composite identifiers. *)
Definition pipe : ascii := "|"%char.

(** [fmt.Sprintf("%s|%s", a, b)]. *)
Definition Sprintf_pipe (a b : string) : string :=
  a ++ String pipe b.

(** [strings.ToLower] on ASCII: the bytes [A]..[Z] become [a]..[z]. *)
Definition lowerByte (c : ascii) : ascii :=
  let n := nat_of_ascii c in
  if (65 <=? n)%nat && (n <=? 90)%nat then ascii_of_nat (n + 32) else c.

Fixpoint ToLower (s : string) : string :=
  match s with
  | EmptyString => EmptyString
  | String c rest => String (lowerByte c) (ToLower rest)
  end.

End GoStrings.

(** ** Programs over shared state *)

Section Prog.
Context {E : Type -> Type}.

(** A handler's interaction with what it shares with other handlers: it
    returns, or performs one event and continues with the answer. *)
Inductive Prog (A : Type) : Type :=
| Ret (a : A)
| Vis {X : Type} (e : E X) (k : X -> Prog A).

Global Arguments Ret {A} a.
Global Arguments Vis {A X} e k.

Fixpoint bind {A B : Type} (p : Prog A) (f : A -> Prog B) : Prog B :=
  match p with
  | Ret a => f a
  | Vis e k => Vis e (fun x => bind (k x) f)
  end.

Definition trigger {X : Type} (e : E X) : Prog X := Vis e Ret.

(** One performed event, as it appears in a trace. *)
Definition Call : Type := {X : Type & E X}.

(** Running a program alone: [h] answers each event and updates the shared
    state, or gives [None] when the event cannot proceed (a lock held by
    somebody else).  The result comes with the trace of performed events. *)
Fixpoint run {W A : Type} (h : forall X, E X -> W -> option (X * W))
         (p : Prog A) (w : W) : option (A * W * list Call) :=
  match p with
  | Ret a => Some (a, w, [])
  | Vis e k =>
      match h _ e w with
      | None => None
      | Some (x, w') =>
          match run h (k x) w' with
          | None => None
          | Some (a, w'', t) => Some (a, w'', existT _ e :: t)
          end
      end
  end.

(** Running several programs over the same shared state: one step performs
    the next event of one of them, if that event can proceed. *)
Inductive pool_step {W A : Type} (h : forall X, E X -> W -> option (X * W))
  : W * list (Prog A) -> nat * Call -> W * list (Prog A) -> Prop :=
| pool_step_at w ts i X (e : E X) k x w' :
    ts !! i = Some (Vis e k) ->
    h X e w = Some (x, w') ->
    pool_step h (w, ts) (i, existT X e) (w', <[i := k x]> ts).

(** The executions of a pool, with the events performed so far, oldest
    first, each with the index of the program that performed it. *)
Inductive pool_steps {W A : Type} (h : forall X, E X -> W -> option (X * W))
  : W * list (Prog A) -> list (nat * Call) -> W * list (Prog A) -> Prop :=
| pool_steps_refl c : pool_steps h c [] c
| pool_steps_snoc c t c' l c'' :
    pool_steps h c t c' -> pool_step h c' l c'' ->
    pool_steps h c (t ++ [l]) c''.

End Prog.

Arguments Prog E A : clear implicits.

(** [Prog E] with stdpp's monad notations: [x ← p; q] and [p ;; q]. *)
#[global] Instance Prog_ret {E} : MRet (Prog E) := fun A a => Ret a.
#[global] Instance Prog_bind {E} : MBind (Prog E) := fun A B f p => bind p f.

(** ** What all packages share: local state, identifiers, SDK answers *)

Module Provider.
Import GoStrings.

(** *** Local state: [pluginsdk.ResourceData] *)

Record ResourceData := {
  Id : string;
  (** the string-typed fields *)
  values : gmap string string;
  (** the map-typed fields *)
  maps : gmap string (gmap string string);
  IsNewResource : bool;
  (** [d.Timeout(pluginsdk.TimeoutDelete)], counted in refresh rounds of a
      state poller *)
  TimeoutDelete : nat;
}.

(** [d.Get(key).(string)]: the zero value when the key is unset. *)
Definition Get (d : ResourceData) (key : string) : string :=
  default "" (values d !! key).

Definition SetId (id : string) (d : ResourceData) : ResourceData :=
  {| Id := id; values := values d; maps := maps d;
     IsNewResource := IsNewResource d; TimeoutDelete := TimeoutDelete d |}.

(** [d.Set(key, value)]. *)
Definition SetField (key value : string) (d : ResourceData) : ResourceData :=
  {| Id := Id d; values := <[key := value]> (values d); maps := maps d;
     IsNewResource := IsNewResource d; TimeoutDelete := TimeoutDelete d |}.

(** [d.Set(key, value)] for a map-typed field. *)
Definition SetMap (key : string) (value : gmap string string) (d : ResourceData)
  : ResourceData :=
  {| Id := Id d; values := values d; maps := <[key := value]> (maps d);
     IsNewResource := IsNewResource d; TimeoutDelete := TimeoutDelete d |}.

(** [d.GetOk(key)] for a string field: the value, and whether it is set to
    something other than the zero value. *)
Definition GetOk (d : ResourceData) (key : string) : string * bool :=
  (Get d key, negb (bool_decide (Get d key = ""))).

(** [d.GetOk(key)] for a map field. *)
Definition GetOkMap (d : ResourceData) (key : string) : gmap string string * bool :=
  (default ∅ (maps d !! key), negb (bool_decide (default ∅ (maps d !! key) = ∅))).

(** *** Resource identifiers *)

Record ResourceID := {
  SubscriptionID : string;
  ResourceGroup : string;
  Provider : string;
  Path : gmap string string;
}.

(** [id.Path[key]]: Go's map index, the zero value when the key is absent. *)
Definition PathAt (id : ResourceID) (key : string) : string :=
  default "" (Path id !! key).

(** Modelled from the spec: part of [azure.ParseAzureResourceID], which is
    not under src/; the type/name pairs that follow the provider in a
    resource path. *)
Fixpoint pathPairs (segments : list string) (acc : gmap string string)
  : option (gmap string string) :=
  match segments with
  | [] => Some acc
  | key :: value :: rest =>
      if bool_decide (key = "") || bool_decide (value = "") then None
      else pathPairs rest (<[key := value]> acc)
  | _ => None
  end.

(** Modelled from the spec: [azure.ParseAzureResourceID] (helpers/azure) is
    not under src/.  The spec has a resource identifier as a string that
    encodes the hierarchical path subscription / resource group / provider /
    type / name, and parsing as failing on anything else.  Here:
    [/subscriptions/S/resourceGroups/G/providers/P] followed by
    type/name pairs, no segment empty. *)
Definition ParseAzureResourceID (id : string) : option ResourceID :=
  match Split id "/"%char with
  | lead :: k1 :: sub :: k2 :: rg :: k3 :: prov :: rest =>
      if bool_decide (lead = "") && bool_decide (k1 = "subscriptions")
         && bool_decide (k2 = "resourceGroups") && bool_decide (k3 = "providers")
         && negb (bool_decide (sub = "")) && negb (bool_decide (rg = ""))
         && negb (bool_decide (prov = ""))
      then
        match pathPairs rest ∅ with
        | Some path =>
            Some {| SubscriptionID := sub; ResourceGroup := rg;
                    Provider := prov; Path := path |}
        | None => None
        end
      else None
  | _ => None
  end.

(** *** What the SDK returns *)

(** An [autorest.Response]: no response at all, or its HTTP status code. *)
Definition Response := option Z.

(** Modelled from the spec: [utils.ResponseWasNotFound] and
    [response.WasNotFound] are not under src/; NotFound is the response
    with status 404. *)
Definition ResponseWasNotFound (r : Response) : bool :=
  bool_decide (r = Some 404%Z).

(** The SDK's own error value, carrying the status it failed with. *)
Record SdkError := { sdkStatus : Z }.

(** A long-running operation's handle; [future.Response()] is its last
    response. *)
Record Future := { FutureResponse : Response }.

End Provider.

(** ** Package [network]: the association and the authorization resources *)

Module Network.
Import GoStrings Provider.

(** Modelled from the spec: the SDK's ip-configuration payload and the two
    helpers that read and write it ([parseFieldsFromNetworkInterface],
    [mapFieldsToNetworkInterface]) are not under src/.  The spec has an
    association as a membership entry inside a list owned by the parent
    interface, embedded in its properties; the payload is modelled as the
    holder of that list. *)
Record InterfaceIPConfigurations := {
  ApplicationSecurityGroups : list string;
}.

Record InterfaceProperties := {
  IPConfigurations : option InterfaceIPConfigurations;
}.

Record Interface := {
  InterfaceResponse : Response;
  ID : option string;
  InterfacePropertiesFormat : option InterfaceProperties;
}.

(** The zero value an SDK call returns next to an error. *)
Definition failedInterface (status : Z) : Interface :=
  {| InterfaceResponse := Some status; ID := None;
     InterfacePropertiesFormat := None |}.

Record networkInterfaceUpdateInformation := {
  applicationSecurityGroupIDs : list string;
}.

(** Modelled from the spec: not under src/ (see [InterfaceIPConfigurations]);
    reads the association list embedded in the interface's properties. *)
Definition parseFieldsFromNetworkInterface (input : InterfaceProperties)
  : networkInterfaceUpdateInformation :=
  {| applicationSecurityGroupIDs :=
       match IPConfigurations input with
       | Some configs => ApplicationSecurityGroups configs
       | None => []
       end |}.

(** Modelled from the spec: not under src/ (see [InterfaceIPConfigurations]);
    writes the association list back into the ip configurations. *)
Definition mapFieldsToNetworkInterface (input : option InterfaceIPConfigurations)
  (info : networkInterfaceUpdateInformation) : option InterfaceIPConfigurations :=
  match input with
  | Some _ => Some {| ApplicationSecurityGroups := applicationSecurityGroupIDs info |}
  | None => None
  end.

(** Modelled from the spec: [utils.SliceContainsValue] is not under src/;
    the spec's append-if-absent test, membership of the value in the slice. *)
Definition SliceContainsValue (input : list string) (value : string) : bool :=
  existsb (String.eqb value) input.

Record AuthorizationProperties := {
  AuthorizationKey : option string;
  AuthorizationUseStatus : string;
}.

Record ExpressRouteCircuitAuthorization := {
  AuthorizationResponse : Response;
  AuthorizationID : option string;
  AuthorizationPropertiesFormat : option AuthorizationProperties;
}.

Definition failedAuthorization (status : Z) : ExpressRouteCircuitAuthorization :=
  {| AuthorizationResponse := Some status; AuthorizationID := None;
     AuthorizationPropertiesFormat := None |}.

(** *** Errors, one constructor per error site *)

Inductive error :=
| ErrParseResourceID (id : string)
| ErrExpectedIDFormat (id : string)
| ImportAsExistsError (resourceName id : string)
| ErrRetrievingNetworkInterface (name resourceGroup : string) (err : SdkError)
| ErrNetworkInterfaceNotFound (name resourceGroup : string)
| ErrPropertiesNil (name resourceGroup : string)
| ErrIPConfigurationsNil (name resourceGroup : string)
| ErrUpdatingAssociation (name resourceGroup : string) (err : SdkError)
| ErrWaitingForAssociation (name resourceGroup : string) (err : SdkError)
| ErrRemovingAssociation (name resourceGroup : string) (err : SdkError)
| ErrWaitingForRemoval (name resourceGroup : string) (err : SdkError)
| ErrCheckingForPresence (name circuit resourceGroup : string) (err : SdkError)
| ErrCreatingAuthorization (name circuit resourceGroup : string) (err : SdkError)
| ErrWaitingForAuthorization (name circuit resourceGroup : string) (err : SdkError)
| ErrRetrievingAuthorization (name circuit resourceGroup : string) (err : SdkError)
| ErrDeletingAuthorization (name circuit resourceGroup : string) (err : SdkError)
| ErrWaitingForAuthorizationDelete (name circuit resourceGroup : string) (err : SdkError)
| PanicNilDereference.

(** What a handler leaves behind: the local state and Go's [error]. *)
Abbreviation Result := (ResourceData * option error)%type.

(** *** Events on the shared state *)

Inductive Event : Type -> Type :=
| LockByName (name resourceType : string) : Event unit
| UnlockByName (name resourceType : string) : Event unit
| InterfacesGet (resourceGroup name expand : string)
  : Event (Interface * option SdkError)
| InterfacesCreateOrUpdate (resourceGroup name : string) (parameters : Interface)
  : Event (Future * option SdkError)
| ExpressRouteAuthsGet (resourceGroup circuit name : string)
  : Event (ExpressRouteCircuitAuthorization * option SdkError)
| ExpressRouteAuthsCreateOrUpdate (resourceGroup circuit name : string)
    (parameters : ExpressRouteCircuitAuthorization)
  : Event (Future * option SdkError)
| ExpressRouteAuthsDelete (resourceGroup circuit name : string)
  : Event (Future * option SdkError)
| WaitForCompletionRef (future : Future) : Event (Future * option SdkError).

(** Modelled from the spec: the two lock-name constants are declared outside
    src/; they are fixed, distinct resource-type names. *)
Definition networkInterfaceResourceName : string := "azurerm_network_interface".

(** Modelled from the spec: declared outside src/, as the constant above. *)
Definition expressRouteCircuitResourceName : string := "azurerm_express_route_circuit".

(** *** The association handlers (src/unnamed/part_000) *)

Definition resourceNetworkInterfaceApplicationSecurityGroupAssociationRead
  (d : ResourceData) : Prog Event Result :=
  let splitId := Split (Id d) pipe in
  if negb (length splitId =? 2)%nat then
    Ret (d, Some (ErrExpectedIDFormat (Id d)))
  else
  match ParseAzureResourceID (nth 0 splitId "") with
  | None => Ret (d, Some (ErrParseResourceID (nth 0 splitId "")))
  | Some nicID =>
  let networkInterfaceName := PathAt nicID "networkInterfaces" in
  let resourceGroup := ResourceGroup nicID in
  let applicationSecurityGroupId := nth 1 splitId "" in
  '(read, err) ← trigger (InterfacesGet resourceGroup networkInterfaceName "");
  match err with
  | Some err =>
      if ResponseWasNotFound (InterfaceResponse read) then
        Ret (SetId "" d, None)
      else
        Ret (d, Some (ErrRetrievingNetworkInterface networkInterfaceName resourceGroup err))
  | None =>
  match InterfacePropertiesFormat read with
  | None => Ret (d, Some (ErrPropertiesNil networkInterfaceName resourceGroup))
  | Some nicProps =>
  let info := parseFieldsFromNetworkInterface nicProps in
  let exists_ :=
    fold_left (fun exists_ groupId =>
                 if String.eqb groupId applicationSecurityGroupId then true
                 else exists_)
              (applicationSecurityGroupIDs info) false in
  if negb exists_ then
    Ret (SetId "" d, None)
  else
    let d := SetField "application_security_group_id" applicationSecurityGroupId d in
    let d := SetField "network_interface_id" (default "" (ID read)) d in
    Ret (d, None)
  end end end.

(** The part of Create that runs with the lock held. *)
Definition associationCreateLocked (d : ResourceData)
  (networkInterfaceId applicationSecurityGroupId : string)
  (networkInterfaceName resourceGroup : string) : Prog Event Result :=
  '(read, err) ← trigger (InterfacesGet resourceGroup networkInterfaceName "");
  match err with
  | Some err =>
      if ResponseWasNotFound (InterfaceResponse read) then
        Ret (SetId "" d, None)
      else
        Ret (d, Some (ErrRetrievingNetworkInterface networkInterfaceName resourceGroup err))
  | None =>
  match InterfacePropertiesFormat read with
  | None => Ret (d, Some (ErrPropertiesNil networkInterfaceName resourceGroup))
  | Some props =>
  match IPConfigurations props with
  | None => Ret (d, Some (ErrIPConfigurationsNil networkInterfaceName resourceGroup))
  | Some _ =>
  let info := parseFieldsFromNetworkInterface props in
  let resourceId := Sprintf_pipe networkInterfaceId applicationSecurityGroupId in
  if SliceContainsValue (applicationSecurityGroupIDs info) applicationSecurityGroupId then
    Ret (d, Some (ImportAsExistsError
                    "azurerm_network_interface_application_security_group_association"
                    resourceId))
  else
  let info :=
    {| applicationSecurityGroupIDs :=
         applicationSecurityGroupIDs info ++ [applicationSecurityGroupId] |} in
  let read :=
    {| InterfaceResponse := InterfaceResponse read; ID := ID read;
       InterfacePropertiesFormat :=
         Some {| IPConfigurations :=
                   mapFieldsToNetworkInterface (IPConfigurations props) info |} |} in
  '(future, err) ← trigger (InterfacesCreateOrUpdate resourceGroup networkInterfaceName read);
  match err with
  | Some err => Ret (d, Some (ErrUpdatingAssociation networkInterfaceName resourceGroup err))
  | None =>
  '(_, err) ← trigger (WaitForCompletionRef future);
  match err with
  | Some err => Ret (d, Some (ErrWaitingForAssociation networkInterfaceName resourceGroup err))
  | None =>
  let d := SetId resourceId d in
  resourceNetworkInterfaceApplicationSecurityGroupAssociationRead d
  end end end end end.

Definition resourceNetworkInterfaceApplicationSecurityGroupAssociationCreate
  (d : ResourceData) : Prog Event Result :=
  let networkInterfaceId := Get d "network_interface_id" in
  let applicationSecurityGroupId := Get d "application_security_group_id" in
  match ParseAzureResourceID networkInterfaceId with
  | None => Ret (d, Some (ErrParseResourceID networkInterfaceId))
  | Some id =>
  let networkInterfaceName := PathAt id "networkInterfaces" in
  let resourceGroup := ResourceGroup id in
  trigger (LockByName networkInterfaceName networkInterfaceResourceName);;
  (* defer locks.UnlockByName(...) *)
  result ← associationCreateLocked d networkInterfaceId applicationSecurityGroupId
             networkInterfaceName resourceGroup;
  trigger (UnlockByName networkInterfaceName networkInterfaceResourceName);;
  Ret result
  end.

(** The part of Delete that runs with the lock held. *)
Definition associationDeleteLocked (d : ResourceData)
  (applicationSecurityGroupId : string)
  (networkInterfaceName resourceGroup : string) : Prog Event Result :=
  '(read, err) ← trigger (InterfacesGet resourceGroup networkInterfaceName "");
  match err with
  | Some err =>
      if ResponseWasNotFound (InterfaceResponse read) then
        Ret (d, Some (ErrNetworkInterfaceNotFound networkInterfaceName resourceGroup))
      else
        Ret (d, Some (ErrRetrievingNetworkInterface networkInterfaceName resourceGroup err))
  | None =>
  match InterfacePropertiesFormat read with
  | None => Ret (d, Some (ErrPropertiesNil networkInterfaceName resourceGroup))
  | Some props =>
  match IPConfigurations props with
  | None => Ret (d, Some (ErrIPConfigurationsNil networkInterfaceName resourceGroup))
  | Some _ =>
  let info := parseFieldsFromNetworkInterface props in
  let applicationSecurityGroupIds :=
    fold_left (fun applicationSecurityGroupIds v =>
                 if negb (String.eqb v applicationSecurityGroupId)
                 then applicationSecurityGroupIds ++ [v]
                 else applicationSecurityGroupIds)
              (applicationSecurityGroupIDs info) [] in
  let info := {| applicationSecurityGroupIDs := applicationSecurityGroupIds |} in
  let read :=
    {| InterfaceResponse := InterfaceResponse read; ID := ID read;
       InterfacePropertiesFormat :=
         Some {| IPConfigurations :=
                   mapFieldsToNetworkInterface (IPConfigurations props) info |} |} in
  '(future, err) ← trigger (InterfacesCreateOrUpdate resourceGroup networkInterfaceName read);
  match err with
  | Some err => Ret (d, Some (ErrRemovingAssociation networkInterfaceName resourceGroup err))
  | None =>
  '(_, err) ← trigger (WaitForCompletionRef future);
  match err with
  | Some err => Ret (d, Some (ErrWaitingForRemoval networkInterfaceName resourceGroup err))
  | None => Ret (d, None)
  end end end end end.

Definition resourceNetworkInterfaceApplicationSecurityGroupAssociationDelete
  (d : ResourceData) : Prog Event Result :=
  let splitId := Split (Id d) pipe in
  if negb (length splitId =? 2)%nat then
    Ret (d, Some (ErrExpectedIDFormat (Id d)))
  else
  match ParseAzureResourceID (nth 0 splitId "") with
  | None => Ret (d, Some (ErrParseResourceID (nth 0 splitId "")))
  | Some nicID =>
  let networkInterfaceName := PathAt nicID "networkInterfaces" in
  let resourceGroup := ResourceGroup nicID in
  let applicationSecurityGroupId := nth 1 splitId "" in
  trigger (LockByName networkInterfaceName networkInterfaceResourceName);;
  (* defer locks.UnlockByName(...) *)
  result ← associationDeleteLocked d applicationSecurityGroupId
             networkInterfaceName resourceGroup;
  trigger (UnlockByName networkInterfaceName networkInterfaceResourceName);;
  Ret result
  end.

(** *** The authorization handlers (src/unnamed/part_001) *)

Definition resourceExpressRouteCircuitAuthorizationRead
  (d : ResourceData) : Prog Event Result :=
  match ParseAzureResourceID (Id d) with
  | None => Ret (d, Some (ErrParseResourceID (Id d)))
  | Some id =>
  let resourceGroup := ResourceGroup id in
  let circuitName := PathAt id "expressRouteCircuits" in
  let name := PathAt id "authorizations" in
  '(resp, err) ← trigger (ExpressRouteAuthsGet resourceGroup circuitName name);
  match err with
  | Some err =>
      if ResponseWasNotFound (AuthorizationResponse resp) then
        Ret (SetId "" d, None)
      else
        Ret (d, Some (ErrRetrievingAuthorization name circuitName resourceGroup err))
  | None =>
  let d := SetField "name" name d in
  let d := SetField "resource_group_name" resourceGroup d in
  let d := SetField "express_route_circuit_name" circuitName d in
  let d :=
    match AuthorizationPropertiesFormat resp with
    | Some props =>
        let d := SetField "authorization_key" (default "" (AuthorizationKey props)) d in
        SetField "authorization_use_status" (AuthorizationUseStatus props) d
    | None => d
    end in
  Ret (d, None)
  end end.

(** The pre-create existence check, [if d.IsNewResource() { ... }]: [Some]
    is the error it returns with, [None] lets Create go on. *)
Definition authorizationImportCheck (d : ResourceData)
  (name resourceGroup circuitName : string) : Prog Event (option error) :=
  if IsNewResource d then
    '(existing, err) ← trigger (ExpressRouteAuthsGet resourceGroup circuitName name);
    let failed :=
      match err with
      | Some err =>
          if negb (ResponseWasNotFound (AuthorizationResponse existing)) then
            Some (ErrCheckingForPresence name circuitName resourceGroup err)
          else None
      | None => None
      end in
    match failed with
    | Some e => Ret (Some e)
    | None =>
        match AuthorizationID existing with
        | Some id =>
            if negb (String.eqb id "") then
              Ret (Some (ImportAsExistsError "azurerm_express_route_circuit_authorization" id))
            else Ret None
        | None => Ret None
        end
    end
  else Ret None.

(** The part of Create that runs with the lock held. *)
Definition authorizationCreateLocked (d : ResourceData)
  (name resourceGroup circuitName : string) : Prog Event Result :=
  collision ← authorizationImportCheck d name resourceGroup circuitName;
  match collision with
  | Some e => Ret (d, Some e)
  | None =>
  let properties :=
    {| AuthorizationResponse := None; AuthorizationID := None;
       AuthorizationPropertiesFormat :=
         Some {| AuthorizationKey := None; AuthorizationUseStatus := "" |} |} in
  '(future, err) ← trigger (ExpressRouteAuthsCreateOrUpdate resourceGroup circuitName name properties);
  match err with
  | Some err => Ret (d, Some (ErrCreatingAuthorization name circuitName resourceGroup err))
  | None =>
  '(_, err) ← trigger (WaitForCompletionRef future);
  match err with
  | Some err => Ret (d, Some (ErrWaitingForAuthorization name circuitName resourceGroup err))
  | None =>
  '(read, err) ← trigger (ExpressRouteAuthsGet resourceGroup circuitName name);
  match err with
  | Some err => Ret (d, Some (ErrRetrievingAuthorization name circuitName resourceGroup err))
  | None =>
  match AuthorizationID read with
  | None => Ret (d, Some PanicNilDereference)
  | Some id =>
  let d := SetId id d in
  resourceExpressRouteCircuitAuthorizationRead d
  end end end end end.

Definition resourceExpressRouteCircuitAuthorizationCreate
  (d : ResourceData) : Prog Event Result :=
  let name := Get d "name" in
  let resourceGroup := Get d "resource_group_name" in
  let circuitName := Get d "express_route_circuit_name" in
  trigger (LockByName circuitName expressRouteCircuitResourceName);;
  (* defer locks.UnlockByName(...) *)
  result ← authorizationCreateLocked d name resourceGroup circuitName;
  trigger (UnlockByName circuitName expressRouteCircuitResourceName);;
  Ret result.

(** The part of Delete that runs with the lock held. *)
Definition authorizationDeleteLocked (d : ResourceData)
  (name resourceGroup circuitName : string) : Prog Event Result :=
  '(future, err) ← trigger (ExpressRouteAuthsDelete resourceGroup circuitName name);
  match err with
  | Some err =>
      if ResponseWasNotFound (FutureResponse future) then Ret (d, None)
      else Ret (d, Some (ErrDeletingAuthorization name circuitName resourceGroup err))
  | None =>
  '(future, err) ← trigger (WaitForCompletionRef future);
  match err with
  | Some err =>
      if ResponseWasNotFound (FutureResponse future) then Ret (d, None)
      else Ret (d, Some (ErrWaitingForAuthorizationDelete name circuitName resourceGroup err))
  | None => Ret (d, None)
  end end.

Definition resourceExpressRouteCircuitAuthorizationDelete
  (d : ResourceData) : Prog Event Result :=
  match ParseAzureResourceID (Id d) with
  | None => Ret (d, Some (ErrParseResourceID (Id d)))
  | Some id =>
  let resourceGroup := ResourceGroup id in
  let circuitName := PathAt id "expressRouteCircuits" in
  let name := PathAt id "authorizations" in
  trigger (LockByName circuitName expressRouteCircuitResourceName);;
  (* defer locks.UnlockByName(...) *)
  result ← authorizationDeleteLocked d name resourceGroup circuitName;
  trigger (UnlockByName circuitName expressRouteCircuitResourceName);;
  Ret result
  end.

(** *** The shared state: lock registry and remote service *)

Inductive Operation :=
| OpInterfacesGet | OpInterfacesCreateOrUpdate
| OpAuthsGet | OpAuthsCreateOrUpdate | OpAuthsDelete
| OpWait.

Record World := {
  subscription : string;
  (** the interfaces the service holds, by resource group and name *)
  interfaces : gmap (string * string) Interface;
  (** the authorizations it holds, by resource group, circuit and name *)
  authorizations : gmap (string * string * string) ExpressRouteCircuitAuthorization;
  (** the operations the service currently fails, with the status of the
      failed response *)
  failing : Operation -> option Z;
  (** the keys of the lock registry that are held *)
  held : gset string;
}.

(** Modelled from the spec: package [locks] is not under src/.  The spec has
    a process-wide mapping from a key to a mutex; the key is built from the
    resource type and the name. *)
Definition lockKey (name resourceType : string) : string :=
  resourceType ++ "." ++ name.

Definition setInterfaces (m : gmap (string * string) Interface) (w : World) : World :=
  {| subscription := subscription w; interfaces := m;
     authorizations := authorizations w; failing := failing w; held := held w |}.

Definition setAuthorizations
  (m : gmap (string * string * string) ExpressRouteCircuitAuthorization)
  (w : World) : World :=
  {| subscription := subscription w; interfaces := interfaces w;
     authorizations := m; failing := failing w; held := held w |}.

Definition setHeld (s : gset string) (w : World) : World :=
  {| subscription := subscription w; interfaces := interfaces w;
     authorizations := authorizations w; failing := failing w; held := s |}.

(** The identifier the service gives an authorization. *)
Definition authorizationPath (w : World) (resourceGroup circuit name : string) : string :=
  "/subscriptions/" ++ subscription w ++ "/resourceGroups/" ++ resourceGroup
  ++ "/providers/Microsoft.Network/expressRouteCircuits/" ++ circuit
  ++ "/authorizations/" ++ name.

(** The answer of the shared state to one event.  The registry is modelled
    from the spec, package [locks] not being under src/: a lock that is held
    cannot be taken, the event does not proceed.  The service is the SDK's
    other side: a failing operation answers its error and changes nothing,
    a resource that is absent answers 404 (to a delete too: the spec's
    second Delete observes NotFound), a write is in the store once the
    request is accepted. *)
Definition handle (X : Type) (e : Event X) (w : World) : option (X * World) :=
  match e in Event X return option (X * World) with
  | LockByName name resourceType =>
      if bool_decide (lockKey name resourceType ∈ held w) then None
      else Some (tt, setHeld ({[lockKey name resourceType]} ∪ held w) w)
  | UnlockByName name resourceType =>
      Some (tt, setHeld (held w ∖ {[lockKey name resourceType]}) w)
  | InterfacesGet resourceGroup name _ =>
      match failing w OpInterfacesGet with
      | Some status => Some ((failedInterface status, Some {| sdkStatus := status |}), w)
      | None =>
          match interfaces w !! (resourceGroup, name) with
          | Some nic =>
              Some (({| InterfaceResponse := Some 200%Z; ID := ID nic;
                        InterfacePropertiesFormat := InterfacePropertiesFormat nic |},
                     None), w)
          | None => Some ((failedInterface 404, Some {| sdkStatus := 404 |}), w)
          end
      end
  | InterfacesCreateOrUpdate resourceGroup name parameters =>
      match failing w OpInterfacesCreateOrUpdate with
      | Some status =>
          Some (({| FutureResponse := Some status |}, Some {| sdkStatus := status |}), w)
      | None =>
          Some (({| FutureResponse := Some 200%Z |}, None),
                setInterfaces (<[(resourceGroup, name) := parameters]> (interfaces w)) w)
      end
  | ExpressRouteAuthsGet resourceGroup circuit name =>
      match failing w OpAuthsGet with
      | Some status => Some ((failedAuthorization status, Some {| sdkStatus := status |}), w)
      | None =>
          match authorizations w !! (resourceGroup, circuit, name) with
          | Some auth =>
              Some (({| AuthorizationResponse := Some 200%Z;
                        AuthorizationID := AuthorizationID auth;
                        AuthorizationPropertiesFormat := AuthorizationPropertiesFormat auth |},
                     None), w)
          | None => Some ((failedAuthorization 404, Some {| sdkStatus := 404 |}), w)
          end
      end
  | ExpressRouteAuthsCreateOrUpdate resourceGroup circuit name parameters =>
      match failing w OpAuthsCreateOrUpdate with
      | Some status =>
          Some (({| FutureResponse := Some status |}, Some {| sdkStatus := status |}), w)
      | None =>
          let stored :=
            {| AuthorizationResponse := None;
               AuthorizationID := Some (authorizationPath w resourceGroup circuit name);
               AuthorizationPropertiesFormat := AuthorizationPropertiesFormat parameters |} in
          Some (({| FutureResponse := Some 200%Z |}, None),
                setAuthorizations (<[(resourceGroup, circuit, name) := stored]> (authorizations w)) w)
      end
  | ExpressRouteAuthsDelete resourceGroup circuit name =>
      match failing w OpAuthsDelete with
      | Some status =>
          Some (({| FutureResponse := Some status |}, Some {| sdkStatus := status |}), w)
      | None =>
          match authorizations w !! (resourceGroup, circuit, name) with
          | Some _ =>
              Some (({| FutureResponse := Some 200%Z |}, None),
                    setAuthorizations (delete (resourceGroup, circuit, name) (authorizations w)) w)
          | None =>
              Some (({| FutureResponse := Some 404%Z |}, Some {| sdkStatus := 404 |}), w)
          end
      end
  | WaitForCompletionRef future =>
      match failing w OpWait with
      | Some status =>
          Some (({| FutureResponse := Some status |}, Some {| sdkStatus := status |}), w)
      | None => Some ((future, None), w)
      end
  end.

(** An interface as the service answers it, with the association list of
    its ip configurations replaced. *)
Definition withGroups (nic : Interface) (groups : list string) : Interface :=
  {| InterfaceResponse := Some 200%Z; ID := ID nic;
     InterfacePropertiesFormat :=
       Some {| IPConfigurations :=
                 Some {| ApplicationSecurityGroups := groups |} |} |}.

(** The calls that change what the service holds. *)
Definition isMutation (c : @Call Event) : bool :=
  match projT2 c with
  | InterfacesCreateOrUpdate _ _ _ => true
  | ExpressRouteAuthsCreateOrUpdate _ _ _ _ => true
  | ExpressRouteAuthsDelete _ _ _ => true
  | _ => false
  end.

End Network.

(** ** Handlers of package [network] running concurrently *)

Module NetworkLocks.
Import GoStrings Provider Network.

(** The operations that change a shared parent under a named lock. *)
Inductive Mutation :=
| CreateAssociation (d : ResourceData)
| DeleteAssociation (d : ResourceData)
| CreateAuthorization (d : ResourceData)
| DeleteAuthorization (d : ResourceData).

Definition handler (m : Mutation) : Prog Event Result :=
  match m with
  | CreateAssociation d =>
      resourceNetworkInterfaceApplicationSecurityGroupAssociationCreate d
  | DeleteAssociation d =>
      resourceNetworkInterfaceApplicationSecurityGroupAssociationDelete d
  | CreateAuthorization d => resourceExpressRouteCircuitAuthorizationCreate d
  | DeleteAuthorization d => resourceExpressRouteCircuitAuthorizationDelete d
  end.

(** The key of the lock that an operation acquires; [None] when it returns
    before it gets to the lock. *)
Definition lockOf (m : Mutation) : option string :=
  match m with
  | CreateAssociation d =>
      match ParseAzureResourceID (Get d "network_interface_id") with
      | Some id => Some (lockKey (PathAt id "networkInterfaces") networkInterfaceResourceName)
      | None => None
      end
  | DeleteAssociation d =>
      if negb (length (Split (Id d) pipe) =? 2)%nat then None
      else
        match ParseAzureResourceID (nth 0 (Split (Id d) pipe) "") with
        | Some id =>
            Some (lockKey (PathAt id "networkInterfaces") networkInterfaceResourceName)
        | None => None
        end
  | CreateAuthorization d =>
      Some (lockKey (Get d "express_route_circuit_name") expressRouteCircuitResourceName)
  | DeleteAuthorization d =>
      match ParseAzureResourceID (Id d) with
      | Some id =>
          Some (lockKey (PathAt id "expressRouteCircuits") expressRouteCircuitResourceName)
      | None => None
      end
  end.

Definition isLockEvent {X : Type} (e : Event X) : bool :=
  match e with
  | LockByName _ _ => true
  | UnlockByName _ _ => true
  | _ => false
  end.

(** A program that touches no lock, whatever the service answers. *)
Inductive LockFree {A : Type} : Prog Event A -> Prop :=
| LockFree_ret a : LockFree (Ret a)
| LockFree_call X (e : Event X) k :
    isLockEvent e = false ->
    (forall x, LockFree (k x)) ->
    LockFree (Vis e k).

(** A program inside its section under the lock [key]: whatever the
    service answers, it touches no lock until it releases [key], and that
    is the last thing it does. *)
Inductive InSection (key : string) {A : Type} : Prog Event A -> Prop :=
| InSection_unlock name resourceType a :
    lockKey name resourceType = key ->
    InSection key (Vis (UnlockByName name resourceType) (fun _ => Ret a))
| InSection_call X (e : Event X) k :
    isLockEvent e = false ->
    (forall x, InSection key (k x)) ->
    InSection key (Vis e k).

(** A program outside its section: it has returned, or its next step is
    to acquire [key] and enter. *)
Inductive Outside (key : string) {A : Type} : Prog Event A -> Prop :=
| Outside_ret a : Outside key (Ret a)
| Outside_lock name resourceType k :
    lockKey name resourceType = key ->
    (forall x, InSection key (k x)) ->
    Outside key (Vis (LockByName name resourceType) k).

(** The traces in which the sections under [key] do not interleave, with
    the program that is left holding the lock: the lock is acquired only
    when nobody holds it, and until its holder releases it every call to the
    service is the holder's. *)
Inductive Serial (key : string) : list (nat * @Call Event) -> option nat -> Prop :=
| Serial_nil : Serial key [] None
| Serial_lock t i name resourceType :
    lockKey name resourceType = key ->
    Serial key t None ->
    Serial key (t ++ [(i, existT _ (LockByName name resourceType))]) (Some i)
| Serial_unlock t i name resourceType :
    lockKey name resourceType = key ->
    Serial key t (Some i) ->
    Serial key (t ++ [(i, existT _ (UnlockByName name resourceType))]) None
| Serial_call t i X (e : Event X) :
    isLockEvent e = false ->
    Serial key t (Some i) ->
    Serial key (t ++ [(i, existT _ e)]) (Some i).

(** Where every program of a pool stands: the holder of the lock is inside
    its section, everybody else is outside; and the registry has the key
    exactly when there is a holder. *)
Definition standing (key : string) (holder : option nat)
  (w : World) (ts : list (Prog Event Result)) : Prop :=
  (forall i p, ts !! i = Some p ->
     if decide (holder = Some i) then InSection key p else Outside key p)
  /\ (holder = None <-> key ∉ held w).

Definition isAcquire (c : @Call Event) : bool :=
  match projT2 c with
  | LockByName _ _ => true
  | _ => false
  end.

Definition isRelease (c : @Call Event) : bool :=
  match projT2 c with
  | UnlockByName _ _ => true
  | _ => false
  end.

End NetworkLocks.

(** ** [pluginsdk.StateChangeConf]: waiting for a state *)

Module PluginSdk.

(** How a wait ends without its target. *)
Inductive WaitFailure (Err : Type) :=
| RefreshFailed (err : Err)
| TimedOut
| UnexpectedState (state : string).
Arguments RefreshFailed {Err} err.
Arguments TimedOut {Err}.
Arguments UnexpectedState {Err} state.

Section StateChangeConf.
Context {E : Type -> Type} {V Err : Type}.

Record StateChangeConf := {
  Pending : list string;
  Target : list string;
  (** the [StateRefreshFunc]: the value, the state it is in, an error *)
  Refresh : Prog E (option V * string * option Err);
  ContinuousTargetOccurence : nat;
  (** the overall bound, counted in refresh rounds *)
  Timeout : nat;
}.

Definition stateIn (state : string) (states : list string) : bool :=
  existsb (String.eqb state) states.

(** Modelled from the spec: [WaitForStateContext] is not under src/.  The
    spec has it re-fetch repeatedly, classify each observation as a Pending
    or a Target state, require a configurable number of consecutive Target
    observations before declaring done, and be bounded by the overall
    timeout.  [budget] is what is left of the timeout, [targetOccurence] the
    consecutive Target observations so far.  An error of the refresh ends
    the wait, and so does a state that is neither Pending nor Target. *)
Fixpoint waitForState (conf : StateChangeConf) (budget targetOccurence : nat)
  : Prog E (option V * option (WaitFailure Err)) :=
  match budget with
  | O => Ret (None, Some TimedOut)
  | S budget =>
      '(res, currentState, err) ← Refresh conf;
      match err with
      | Some err => Ret (None, Some (RefreshFailed err))
      | None =>
          if stateIn currentState (Target conf) then
            let targetOccurence := S targetOccurence in
            if (ContinuousTargetOccurence conf <=? targetOccurence)%nat then
              Ret (res, None)
            else waitForState conf budget targetOccurence
          else if stateIn currentState (Pending conf) then
            waitForState conf budget 0
          else Ret (None, Some (UnexpectedState currentState))
      end
  end.

(** The wait from the start: the whole timeout ahead, no Target observation
    yet. *)
Definition WaitForStateContext (conf : StateChangeConf)
  : Prog E (option V * option (WaitFailure Err)) :=
  waitForState conf (Timeout conf) 0.

End StateChangeConf.
Arguments StateChangeConf E V Err : clear implicits.

End PluginSdk.

(** ** Package [compute]: deleting a dedicated host *)

Module Compute.
Import GoStrings Provider PluginSdk.

Record DedicatedHostId := {
  ResourceGroup : string;
  HostGroupName : string;
  HostName : string;
}.

(** Modelled from the spec: [parse.DedicatedHostID] is not under src/; a
    resource identifier whose path names a host group and a host. *)
Definition DedicatedHostID (input : string) : option DedicatedHostId :=
  match ParseAzureResourceID input with
  | Some id =>
      match Path id !! "hostGroups", Path id !! "hosts" with
      | Some hostGroup, Some host =>
          Some {| ResourceGroup := Provider.ResourceGroup id;
                  HostGroupName := hostGroup; HostName := host |}
      | _, _ => None
      end
  | None => None
  end.

Record DedicatedHost := {
  HostResponse : Response;
  ID : option string;
  Name : option string;
}.

Definition failedHost (status : Z) : DedicatedHost :=
  {| HostResponse := Some status; ID := None; Name := None |}.

(** The error of the refresh function. *)
Inductive pollError :=
| ErrPolling (err : SdkError).

Inductive error :=
| ErrParseDedicatedHostID (id : string)
| ErrDeleting (id : DedicatedHostId) (err : SdkError)
| ErrWaitingForDeleting (id : DedicatedHostId) (err : SdkError)
| ErrWaitingToDisappear (id : DedicatedHostId) (err : WaitFailure pollError).

Abbreviation Result := (ResourceData * option error)%type.

Inductive Event : Type -> Type :=
| HostsDelete (resourceGroup hostGroup name : string)
  : Event (Future * option SdkError)
| HostsGet (resourceGroup hostGroup name expand : string)
  : Event (DedicatedHost * option SdkError)
| WaitForCompletionRef (future : Future) : Event (Future * option SdkError).

(** What a refresh hands back as [interface{}]. *)
Inductive RefreshValue :=
| ValString (s : string)
| ValHost (h : DedicatedHost).

Definition dedicatedHostDeletedRefreshFunc (id : DedicatedHostId)
  : Prog Event (option RefreshValue * string * option pollError) :=
  '(res, err) ← trigger (HostsGet (ResourceGroup id) (HostGroupName id) (HostName id) "");
  match err with
  | Some err =>
      if ResponseWasNotFound (HostResponse res) then
        Ret (Some (ValString "NotFound"), "NotFound", None)
      else
        Ret (None, "", Some (ErrPolling err))
  | None => Ret (Some (ValHost res), "Exists", None)
  end.

(** The [StateChangeConf] that Delete waits with. *)
Definition deleteStateConf (d : ResourceData) (id : DedicatedHostId)
  : StateChangeConf Event RefreshValue pollError :=
  {| Pending := ["Exists"];
     Target := ["NotFound"];
     Refresh := dedicatedHostDeletedRefreshFunc id;
     ContinuousTargetOccurence := 20;
     Timeout := TimeoutDelete d |}.

Definition resourceDedicatedHostDelete (d : ResourceData) : Prog Event Result :=
  match DedicatedHostID (Id d) with
  | None => Ret (d, Some (ErrParseDedicatedHostID (Id d)))
  | Some id =>
  '(future, err) ← trigger (HostsDelete (ResourceGroup id) (HostGroupName id) (HostName id));
  match err with
  | Some err => Ret (d, Some (ErrDeleting id err))
  | None =>
  '(future, err) ← trigger (WaitForCompletionRef future);
  let failed :=
    match err with
    | Some err =>
        if negb (ResponseWasNotFound (FutureResponse future)) then
          Some (ErrWaitingForDeleting id err)
        else None
    | None => None
    end in
  match failed with
  | Some e => Ret (d, Some e)
  | None =>
  let stateConf := deleteStateConf d id in
  '(_, err) ← WaitForStateContext stateConf;
  match err with
  | Some err => Ret (d, Some (ErrWaitingToDisappear id err))
  | None => Ret (d, None)
  end end end end.

(** The service as Delete sees it: an eventually consistent read.  The
    [n]-th read of the host answers with status [hostStatusAt n]. *)
Record World := {
  deleteFailing : option Z;
  waitFailing : option Z;
  hostStatusAt : nat -> Z;
  (** the reads performed so far *)
  reads : nat;
}.

(** The service after one more read. *)
Definition afterRead (w : World) : World :=
  {| deleteFailing := deleteFailing w; waitFailing := waitFailing w;
     hostStatusAt := hostStatusAt w; reads := S (reads w) |}.

Definition theHost (resourceGroup hostGroup name : string) : DedicatedHost :=
  {| HostResponse := Some 200%Z;
     ID := Some ("/resourceGroups/" ++ resourceGroup ++ "/hostGroups/" ++ hostGroup
                 ++ "/hosts/" ++ name)%string;
     Name := Some name |}.

(** The answer of the service to one event; every event proceeds. *)
Definition handle (X : Type) (e : Event X) (w : World) : option (X * World) :=
  match e in Event X return option (X * World) with
  | HostsDelete _ _ _ =>
      match deleteFailing w with
      | Some status =>
          Some (({| FutureResponse := Some status |}, Some {| sdkStatus := status |}), w)
      | None => Some (({| FutureResponse := Some 202%Z |}, None), w)
      end
  | WaitForCompletionRef future =>
      match waitFailing w with
      | Some status =>
          Some (({| FutureResponse := Some status |}, Some {| sdkStatus := status |}), w)
      | None => Some ((future, None), w)
      end
  | HostsGet resourceGroup hostGroup name _ =>
      let status := hostStatusAt w (reads w) in
      if bool_decide (status = 200%Z) then
        Some ((theHost resourceGroup hostGroup name, None), afterRead w)
      else
        Some ((failedHost status, Some {| sdkStatus := status |}), afterRead w)
  end.

End Compute.

(** ** Package [automation]: creating a job schedule (src/unnamed/part_003) *)

Module Automation.
Import GoStrings Provider.

Record ScheduleAssociationProperty := { ScheduleName : option string }.
Record RunbookAssociationProperty := { RunbookName : option string }.

Record JobScheduleProperties := {
  Schedule : option ScheduleAssociationProperty;
  Runbook : option RunbookAssociationProperty;
  RunOn : option string;
  Parameters : option (gmap string string);
}.

Record JobSchedule := {
  JobScheduleResponse : Response;
  ID : option string;
  JobScheduleID : option string;
  JobScheduleProperties_ : option JobScheduleProperties;
}.

Definition failedJobSchedule (status : Z) : JobSchedule :=
  {| JobScheduleResponse := Some status; ID := None; JobScheduleID := None;
     JobScheduleProperties_ := None |}.

(** The SDK's list iterator: the values from the current one on, and the
    error the fetch of the page after them fails with, if it does. *)
Record JobScheduleListResultIterator := {
  remaining : list JobSchedule;
  pageError : option SdkError;
}.

Inductive Operation :=
| OpNewV4 | OpGet | OpList | OpNextPage | OpDelete | OpCreate.

Section WithUUID.
(** Package [github.com/gofrs/uuid] is a library of its own; its type and
    the functions the handlers call are taken as they come. *)
Context {UUID : Type} `{EqDecision UUID}.
Variable FromString : string -> option UUID.
Variable UUIDString : UUID -> string.
Variable Nil : UUID.

Definition FromStringOrNil (input : string) : UUID :=
  default Nil (FromString input).

Inductive error :=
| ErrNewV4
| ErrSdk (err : SdkError)
| ErrCheckingForPresence (id : UUID) (account resourceGroup : string) (err : SdkError)
| ImportAsExistsError (resourceName id : string)
| ErrLoadingJobScheduleList (account : string) (err : SdkError)
| ErrJobScheduleIdNilOrEmpty (account : string)
| ErrParsingJobScheduleId (account : string)
| ErrDeletingJobSchedule (account : string) (err : SdkError)
| ErrCannotReadID (id : UUID) (account resourceGroup : string)
| ErrParseResourceID (id : string)
| ErrMakingReadRequest (id : UUID) (err : SdkError)
| PanicNilDereference.

Abbreviation Result := (ResourceData * option error)%type.

Inductive Event : Type -> Type :=
| NewV4 : Event (UUID * bool)
| JobScheduleGet (resourceGroup account : string) (id : UUID)
  : Event (JobSchedule * option SdkError)
| JobScheduleListByAutomationAccountComplete (resourceGroup account filter : string)
  : Event (JobScheduleListResultIterator * option SdkError)
| JobScheduleDelete (resourceGroup account : string) (id : UUID)
  : Event (Response * option SdkError)
| JobScheduleCreate (resourceGroup account : string) (id : UUID)
    (parameters : JobScheduleProperties)
  : Event (JobSchedule * option SdkError).

Definition resourceAutomationJobScheduleRead (d : ResourceData) : Prog Event Result :=
  match ParseAzureResourceID (Id d) with
  | None => Ret (d, Some (ErrParseResourceID (Id d)))
  | Some id =>
  let jobScheduleID := PathAt id "jobSchedules" in
  let jobScheduleUUID := FromStringOrNil jobScheduleID in
  let resourceGroup := ResourceGroup id in
  let accountName := PathAt id "automationAccounts" in
  '(resp, err) ← trigger (JobScheduleGet resourceGroup accountName jobScheduleUUID);
  match err with
  | Some err =>
      if ResponseWasNotFound (JobScheduleResponse resp) then Ret (SetId "" d, None)
      else Ret (d, Some (ErrMakingReadRequest jobScheduleUUID err))
  | None =>
  let d := SetField "job_schedule_id" (default "" (JobScheduleID resp)) d in
  let d := SetField "resource_group_name" resourceGroup d in
  let d := SetField "automation_account_name" accountName d in
  match JobScheduleProperties_ resp with
  | None => Ret (d, Some PanicNilDereference)
  | Some props =>
  match Runbook props, Schedule props with
  | Some runbook, Some schedule =>
      let d := SetField "runbook_name" (default "" (RunbookName runbook)) d in
      let d := SetField "schedule_name" (default "" (ScheduleName schedule)) d in
      let d :=
        match RunOn props with
        | Some v => SetField "run_on" v d
        | None => d
        end in
      let d :=
        match Parameters props with
        | Some v =>
            let jsParameters : gmap string string :=
              list_to_map ((fun kv => (ToLower kv.1, kv.2)) <$> map_to_list v) in
            SetMap "parameters" jsParameters d
        | None => d
        end in
      Ret (d, None)
  | _, _ => Ret (d, Some PanicNilDereference)
  end end end end.

(** Whether a listed job schedule is for the requested schedule and
    runbook: the condition of the loop's inner [if].  [None] is the nil
    dereference of a missing [Schedule] or [Runbook]. *)
Definition sameScheduleAndRunbook (props : JobScheduleProperties)
  (scheduleName runbookName : string) : option bool :=
  match Schedule props with
  | None => None
  | Some schedule =>
      match ScheduleName schedule with
      | Some name =>
          if String.eqb name scheduleName then
            match Runbook props with
            | None => None
            | Some runbook =>
                Some (match RunbookName runbook with
                      | Some name => String.eqb name runbookName
                      | None => false
                      end)
            end
          else Some false
      | None => Some false
      end
  end.

(** The body of the loop over the listed job schedules, for one value. *)
Definition deleteIfSame (resourceGroup accountName scheduleName runbookName : string)
  (value : JobSchedule) : Prog Event (option error) :=
  match JobScheduleProperties_ value with
  | None => Ret None
  | Some props =>
      match sameScheduleAndRunbook props scheduleName runbookName with
      | None => Ret (Some PanicNilDereference)
      | Some false => Ret None
      | Some true =>
          match JobScheduleID value with
          | None => Ret (Some (ErrJobScheduleIdNilOrEmpty accountName))
          | Some jobScheduleID =>
              if String.eqb jobScheduleID "" then
                Ret (Some (ErrJobScheduleIdNilOrEmpty accountName))
              else
                match FromString jobScheduleID with
                | None => Ret (Some (ErrParsingJobScheduleId accountName))
                | Some jsId =>
                    '(_, err) ← trigger (JobScheduleDelete resourceGroup accountName jsId);
                    match err with
                    | Some err => Ret (Some (ErrDeletingJobSchedule accountName err))
                    | None => Ret None
                    end
                end
          end
      end
  end.

(** The loop
    [for jsIterator, err := List(); jsIterator.NotDone(); err = jsIterator.NextWithContext(ctx)]
    from an iterator standing on the head of [values], with [err] as the
    init or the previous post statement left it.  When the fetch of the
    next page fails, the iterator stays on its value, so the loop is
    entered once more and its first statement returns. *)
Fixpoint deleteListed (resourceGroup accountName scheduleName runbookName : string)
  (values : list JobSchedule) (pageError err : option SdkError)
  : Prog Event (option error) :=
  match values with
  | [] => Ret None
  | value :: rest =>
      match err with
      | Some err => Ret (Some (ErrLoadingJobScheduleList accountName err))
      | None =>
          failed ← deleteIfSame resourceGroup accountName scheduleName runbookName value;
          match failed with
          | Some e => Ret (Some e)
          | None =>
              match rest, pageError with
              | [], Some err => Ret (Some (ErrLoadingJobScheduleList accountName err))
              | _, _ =>
                  deleteListed resourceGroup accountName scheduleName runbookName
                               rest pageError None
              end
          end
      end
  end.

(** The pre-create existence check, [if d.IsNewResource() { ... }]. *)
Definition jobScheduleImportCheck (d : ResourceData)
  (resourceGroup accountName : string) (jobScheduleUUID : UUID)
  : Prog Event (option error) :=
  if IsNewResource d then
    '(existing, err) ← trigger (JobScheduleGet resourceGroup accountName jobScheduleUUID);
    let failed :=
      match err with
      | Some err =>
          if negb (ResponseWasNotFound (JobScheduleResponse existing)) then
            Some (ErrCheckingForPresence jobScheduleUUID accountName resourceGroup err)
          else None
      | None => None
      end in
    match failed with
    | Some e => Ret (Some e)
    | None =>
        match ID existing with
        | Some id =>
            if negb (String.eqb id "") then
              Ret (Some (ImportAsExistsError "azurerm_automation_job_schedule" id))
            else Ret None
        | None => Ret None
        end
    end
  else Ret None.

Definition resourceAutomationJobScheduleCreate (d : ResourceData) : Prog Event Result :=
  let resourceGroup := Get d "resource_group_name" in
  let accountName := Get d "automation_account_name" in
  let runbookName := Get d "runbook_name" in
  let scheduleName := Get d "schedule_name" in
  '(jobScheduleUUID, failed) ← trigger NewV4;
  if (failed : bool) then Ret (d, Some ErrNewV4) else
  let jobScheduleUUID :=
    let '(jobScheduleID, ok) := GetOk d "job_schedule_id" in
    if ok then FromStringOrNil jobScheduleID else jobScheduleUUID in
  collision ← jobScheduleImportCheck d resourceGroup accountName jobScheduleUUID;
  match collision with
  | Some e => Ret (d, Some e)
  | None =>
  '(jsIterator, err) ←
    trigger (JobScheduleListByAutomationAccountComplete resourceGroup accountName "");
  failed ← deleteListed resourceGroup accountName scheduleName runbookName
             (remaining jsIterator) (pageError jsIterator) err;
  match failed with
  | Some e => Ret (d, Some e)
  | None =>
  let parameters :=
    {| Schedule := Some {| ScheduleName := Some scheduleName |};
       Runbook := Some {| RunbookName := Some runbookName |};
       RunOn :=
         (let '(v, ok) := GetOk d "run_on" in if ok then Some v else None);
       Parameters :=
         (let '(v, ok) := GetOkMap d "parameters" in if ok then Some v else None) |} in
  '(_, err) ← trigger (JobScheduleCreate resourceGroup accountName jobScheduleUUID parameters);
  match err with
  | Some err => Ret (d, Some (ErrSdk err))
  | None =>
  '(read, err) ← trigger (JobScheduleGet resourceGroup accountName jobScheduleUUID);
  match err with
  | Some err => Ret (d, Some (ErrSdk err))
  | None =>
  match ID read with
  | None => Ret (d, Some (ErrCannotReadID jobScheduleUUID accountName resourceGroup))
  | Some id =>
  let d := SetId id d in
  resourceAutomationJobScheduleRead d
  end end end end end.

(** *** The service *)

Record World := {
  subscription : string;
  (** the job schedules of each account, by resource group and account
      name, in the order the service lists them *)
  jobSchedules : gmap (string * string) (list JobSchedule);
  (** the operations the service currently fails, with the status of the
      failed response *)
  failing : Operation -> option Z;
  (** when the fetch of a further page fails: how many values the pages
      before it hold *)
  firstPages : nat;
  (** what [uuid.NewV4] draws next *)
  nextUUID : UUID;
}.

Definition setJobSchedules (resourceGroup account : string)
  (l : list JobSchedule) (w : World) : World :=
  {| subscription := subscription w;
     jobSchedules := <[(resourceGroup, account) := l]> (jobSchedules w);
     failing := failing w; firstPages := firstPages w; nextUUID := nextUUID w |}.

Definition accountSchedules (w : World) (resourceGroup account : string)
  : list JobSchedule :=
  default [] (jobSchedules w !! (resourceGroup, account)).

(** Whether a stored job schedule is the one with this id. *)
Definition hasID (id : UUID) (js : JobSchedule) : bool :=
  match JobScheduleID js with
  | Some s =>
      match FromString s with
      | Some id' => bool_decide (id' = id)
      | None => false
      end
  | None => false
  end.

(** What the iterator of a listing enumerates. *)
Definition listed (w : World) (resourceGroup account : string)
  : JobScheduleListResultIterator :=
  match failing w OpNextPage with
  | Some status =>
      {| remaining := take (firstPages w) (accountSchedules w resourceGroup account);
         pageError := Some {| sdkStatus := status |} |}
  | None =>
      {| remaining := accountSchedules w resourceGroup account; pageError := None |}
  end.

Definition jobSchedulePath (w : World) (resourceGroup account : string) (id : UUID)
  : string :=
  ("/subscriptions/" ++ subscription w ++ "/resourceGroups/" ++ resourceGroup
   ++ "/providers/Microsoft.Automation/automationAccounts/" ++ account
   ++ "/jobSchedules/" ++ UUIDString id)%string.

(** The answer of the service to one event; every event proceeds.  A
    listing that fails hands back an iterator without values, next to its
    error; a job schedule that is absent answers 404. *)
Definition handle (X : Type) (e : Event X) (w : World) : option (X * World) :=
  match e in Event X return option (X * World) with
  | NewV4 =>
      match failing w OpNewV4 with
      | Some _ => Some ((Nil, true), w)
      | None => Some ((nextUUID w, false), w)
      end
  | JobScheduleGet resourceGroup account id =>
      match failing w OpGet with
      | Some status => Some ((failedJobSchedule status, Some {| sdkStatus := status |}), w)
      | None =>
          match List.find (hasID id) (accountSchedules w resourceGroup account) with
          | Some js =>
              Some (({| JobScheduleResponse := Some 200%Z; ID := ID js;
                        JobScheduleID := JobScheduleID js;
                        JobScheduleProperties_ := JobScheduleProperties_ js |}, None), w)
          | None => Some ((failedJobSchedule 404, Some {| sdkStatus := 404 |}), w)
          end
      end
  | JobScheduleListByAutomationAccountComplete resourceGroup account _ =>
      match failing w OpList with
      | Some status =>
          Some (({| remaining := []; pageError := None |}, Some {| sdkStatus := status |}), w)
      | None => Some ((listed w resourceGroup account, None), w)
      end
  | JobScheduleDelete resourceGroup account id =>
      match failing w OpDelete with
      | Some status => Some ((Some status, Some {| sdkStatus := status |}), w)
      | None =>
          if existsb (hasID id) (accountSchedules w resourceGroup account) then
            Some ((Some 200%Z, None),
                  setJobSchedules resourceGroup account
                    (List.filter (fun js => negb (hasID id js))
                       (accountSchedules w resourceGroup account)) w)
          else Some ((Some 404%Z, Some {| sdkStatus := 404 |}), w)
      end
  | JobScheduleCreate resourceGroup account id parameters =>
      match failing w OpCreate with
      | Some status => Some ((failedJobSchedule status, Some {| sdkStatus := status |}), w)
      | None =>
          let created :=
            {| JobScheduleResponse := Some 201%Z;
               ID := Some (jobSchedulePath w resourceGroup account id);
               JobScheduleID := Some (UUIDString id);
               JobScheduleProperties_ := Some parameters |} in
          Some ((created, None),
                setJobSchedules resourceGroup account
                  (List.filter (fun js => negb (hasID id js))
                     (accountSchedules w resourceGroup account) ++ [created]) w)
      end
  end.








End WithUUID.

End Automation.

(** ** Concrete identifiers, local states and services for the examples *)

Module Examples.
Import GoStrings Provider.

Definition nic1 : string :=
  "/subscriptions/s1/resourceGroups/rg1/providers/Microsoft.Network/networkInterfaces/nic1".
Definition asg1 : string :=
  "/subscriptions/s1/resourceGroups/rg1/providers/Microsoft.Network/applicationSecurityGroups/asg1".
Definition asg2 : string :=
  "/subscriptions/s1/resourceGroups/rg1/providers/Microsoft.Network/applicationSecurityGroups/asg2".
Definition auth1 : string :=
  "/subscriptions/s1/resourceGroups/rg1/providers/Microsoft.Network/expressRouteCircuits/c1/authorizations/a1".

(** The interface [nic1] with the given association list. *)
Definition nicWith (groups : list string) : Network.Interface :=
  {| Network.InterfaceResponse := None; Network.ID := Some nic1;
     Network.InterfacePropertiesFormat :=
       Some {| Network.IPConfigurations :=
                 Some {| Network.ApplicationSecurityGroups := groups |} |} |}.

Definition noFailure : Network.Operation -> option Z := fun _ => None.

(** A service that holds [nic1] with the given association list. *)
Definition serviceWith (groups : list string) : Network.World :=
  {| Network.subscription := "s1";
     Network.interfaces := {[ ("rg1", "nic1") := nicWith groups ]};
     Network.authorizations := ∅;
     Network.failing := noFailure;
     Network.held := ∅ |}.

(** A service that holds nothing. *)
Definition emptyService : Network.World :=
  {| Network.subscription := "s1";
     Network.interfaces := ∅;
     Network.authorizations := ∅;
     Network.failing := noFailure;
     Network.held := ∅ |}.

(** A service that holds the authorization [a1] of circuit [c1]. *)
Definition serviceWithAuthorization : Network.World :=
  {| Network.subscription := "s1";
     Network.interfaces := ∅;
     Network.authorizations :=
       {[ ("rg1", "c1", "a1") :=
            {| Network.AuthorizationResponse := None;
               Network.AuthorizationID := Some auth1;
               Network.AuthorizationPropertiesFormat := None |} ]};
     Network.failing := noFailure;
     Network.held := ∅ |}.

(** [nic1] parsed. *)
Definition nic1ID : ResourceID :=
  {| SubscriptionID := "s1"; ResourceGroup := "rg1";
     Provider := "Microsoft.Network";
     Path := {[ "networkInterfaces" := "nic1" ]} |}.

(** [auth1] parsed. *)
Definition auth1ID : ResourceID :=
  {| SubscriptionID := "s1"; ResourceGroup := "rg1";
     Provider := "Microsoft.Network";
     Path := {[ "expressRouteCircuits" := "c1"; "authorizations" := "a1" ]} |}.

(** The configuration of the association of [nic1] and [asg1], not yet
    created. *)
Definition newAssociation : ResourceData :=
  {| Id := "";
     values := {[ "network_interface_id" := nic1;
                  "application_security_group_id" := asg1 ]};
     maps := ∅; IsNewResource := true; TimeoutDelete := 180 |}.

(** The same association once created. *)
Definition association : ResourceData :=
  SetId (Sprintf_pipe nic1 asg1) newAssociation.

(** The association whose identifier lost its second part. *)
Definition truncatedAssociation : ResourceData :=
  SetId (Sprintf_pipe nic1 "") newAssociation.

(** The configuration of the authorization [a1], not yet created. *)
Definition newAuthorization : ResourceData :=
  {| Id := "";
     values := {[ "name" := "a1"; "resource_group_name" := "rg1";
                  "express_route_circuit_name" := "c1" ]};
     maps := ∅; IsNewResource := true; TimeoutDelete := 180 |}.

(** The same authorization once created. *)
Definition authorization : ResourceData := SetId auth1 newAuthorization.

(** A stand-in for [uuid.FromString] in the examples: the canonical form
    has 36 bytes. *)
Definition canonicalUUID (s : string) : option string :=
  if (String.length s =? 36)%nat then Some s else None.

Definition nilUUID : string := "00000000-0000-0000-0000-000000000000".
Definition uuid2 : string := "22222222-2222-2222-2222-222222222222".

(** A job schedule of schedule [sched1] and runbook [rb1] under the given
    job schedule id. *)
Definition jobScheduleWith (jobScheduleID : option string) : Automation.JobSchedule :=
  {| Automation.JobScheduleResponse := None;
     Automation.ID := Some "/subscriptions/s1/resourceGroups/rg1/providers/Microsoft.Automation/automationAccounts/acc1/jobSchedules/old";
     Automation.JobScheduleID := jobScheduleID;
     Automation.JobScheduleProperties_ :=
       Some {| Automation.Schedule := Some {| Automation.ScheduleName := Some "sched1" |};
               Automation.Runbook := Some {| Automation.RunbookName := Some "rb1" |};
               Automation.RunOn := None;
               Automation.Parameters := None |} |}.



(** An automation account [acc1] that lists the given job schedules and
    draws [uuid2] next. *)
Definition accountWith (schedules : list Automation.JobSchedule)
  : @Automation.World string :=
  {| Automation.subscription := "s1";
     Automation.jobSchedules := {[ ("rg1", "acc1") := schedules ]};
     Automation.failing := fun _ => None;
     Automation.firstPages := 0;
     Automation.nextUUID := uuid2 |}.

(** The configuration of a job schedule of [sched1] and [rb1], not yet
    created. *)
Definition newJobSchedule : ResourceData :=
  {| Id := "";
     values := {[ "resource_group_name" := "rg1";
                  "automation_account_name" := "acc1";
                  "runbook_name" := "rb1"; "schedule_name" := "sched1" ]};
     maps := ∅; IsNewResource := true; TimeoutDelete := 180 |}.

Definition host1 : string :=
  "/subscriptions/s1/resourceGroups/rg1/providers/Microsoft.Compute/hostGroups/g1/hosts/h1".

Definition host1ID : Compute.DedicatedHostId :=
  {| Compute.ResourceGroup := "rg1"; Compute.HostGroupName := "g1";
     Compute.HostName := "h1" |}.

(** The dedicated host [h1] in local state, with a delete timeout of 180
    refresh rounds. *)
Definition dedicatedHost : ResourceData :=
  {| Id := host1; values := ∅; maps := ∅; IsNewResource := false;
     TimeoutDelete := 180 |}.

(** The same with a timeout of 27 refresh rounds. *)
Definition dedicatedHostShortTimeout : ResourceData :=
  {| Id := host1; values := ∅; maps := ∅; IsNewResource := false;
     TimeoutDelete := 27 |}.

(** A service whose reads of the host answer 200, 200, five times 404, 200
    and 404 from then on. *)
Definition flappingService : Compute.World :=
  {| Compute.deleteFailing := None; Compute.waitFailing := None;
     Compute.hostStatusAt :=
       (fun n => if (n <? 2)%nat || (n =? 7)%nat then 200%Z else 404%Z);
     Compute.reads := 0 |}.

End Examples.

(** * Properties *)

(** ** Facts about [strings.Split] *)

Module GoStringsFacts.
Import GoStrings.

Lemma Split_nonempty s sep : Split s sep <> [].
Proof.
  induction s as [|c rest IH]; simpl; [discriminate|].
  destruct (Ascii.eqb c sep); [discriminate|].
  destruct (Split rest sep); discriminate.
Qed.

Lemma Split_no_sep s sep : ContainsByte s sep = false -> Split s sep = [s].
Proof.
  induction s as [|c rest IH]; simpl; [reflexivity|].
  intros H. apply orb_false_iff in H as [Hc Hrest].
  rewrite Hc, (IH Hrest). reflexivity.
Qed.

Lemma Split_app_sep a b sep :
  ContainsByte a sep = false ->
  Split (a ++ String sep b) sep = a :: Split b sep.
Proof.
  induction a as [|c rest IH]; simpl.
  - intros _. rewrite Ascii.eqb_refl. reflexivity.
  - intros H. apply orb_false_iff in H as [Hc Hrest].
    rewrite Hc, (IH Hrest). reflexivity.
Qed.

(** A separator in the string gives at least two parts. *)
Lemma Split_with_sep s sep :
  ContainsByte s sep = true -> (2 <= length (Split s sep))%nat.
Proof.
  induction s as [|c rest IH]; simpl; [discriminate|].
  destruct (Ascii.eqb c sep) eqn:Hc; simpl.
  - intros _. pose proof (Split_nonempty rest sep).
    destruct (Split rest sep); [congruence | simpl; lia].
  - intros H. specialize (IH H).
    destruct (Split rest sep); simpl in *; lia.
Qed.

Lemma Split_app_length a b sep :
  length (Split (a ++ String sep b) sep)
  = (length (Split a sep) + length (Split b sep))%nat.
Proof.
  induction a as [|c rest IH]; simpl.
  - rewrite Ascii.eqb_refl. reflexivity.
  - destruct (Ascii.eqb c sep); simpl; [now rewrite IH|].
    pose proof (Split_nonempty rest sep) as Hne.
    destruct (Split (rest ++ String sep b) sep) eqn:E1;
      destruct (Split rest sep) eqn:E2; simpl in *; try congruence; lia.
Qed.

(** A joined pair splits in two exactly when neither side has a pipe. *)
Lemma Split_join_two a b :
  length (Split (Sprintf_pipe a b) pipe) = 2%nat ->
  ContainsByte a pipe = false /\ ContainsByte b pipe = false.
Proof.
  unfold Sprintf_pipe. rewrite Split_app_length. intros Hlen.
  destruct (ContainsByte a pipe) eqn:Ha.
  - apply Split_with_sep in Ha.
    pose proof (Split_nonempty b pipe). destruct (Split b pipe); [congruence|].
    simpl in *. lia.
  - split; [reflexivity|].
    rewrite (Split_no_sep a pipe Ha) in Hlen. simpl in Hlen.
    destruct (ContainsByte b pipe) eqn:Hb; [|reflexivity].
    apply Split_with_sep in Hb. lia.
Qed.

(** Splitting a joined pair whose parts have no pipe gives the parts back. *)
Lemma Split_Sprintf_pipe (a b : string) :
  ContainsByte a pipe = false ->
  ContainsByte b pipe = false ->
  Split (Sprintf_pipe a b) pipe = [a; b].
Proof.
  intros Ha Hb. unfold Sprintf_pipe.
  rewrite (Split_app_sep a b pipe Ha), (Split_no_sep b pipe Hb). reflexivity.
Qed.

(** C4: for identifiers [a] and [b] that contain no pipe character,
    splitting the joined composite string [a|b] on the pipe yields exactly
    the two parts [a] and [b], so the split undoes the join. *)
Theorem split_join_roundtrip (a b : string) :
  ContainsByte a pipe = false ->
  ContainsByte b pipe = false ->
  Split (Sprintf_pipe a b) pipe = [a; b].
Proof.
  intros Ha Hb. unfold Sprintf_pipe.
  rewrite Split_app_sep by exact Ha.
  rewrite Split_no_sep by exact Hb.
  reflexivity.
Qed.

Lemma split_join_roundtrip_witness :
  Split (Sprintf_pipe Examples.nic1 Examples.asg1) pipe
  = [Examples.nic1; Examples.asg1].
Proof.
  apply split_join_roundtrip; reflexivity.
Defined.

End GoStringsFacts.

(** ** Facts about running programs *)

Module ProgFacts.
Section Facts.
Context {E : Type -> Type} {W : Type}.
Variable h : forall X, E X -> W -> option (X * W).

Lemma run_bind {A B} (p : Prog E A) (f : A -> Prog E B) (w : W) :
  run h (p ≫= f) w =
  match run h p w with
  | None => None
  | Some (a, w', t) =>
      match run h (f a) w' with
      | None => None
      | Some (b, w'', t') => Some (b, w'', t ++ t')
      end
  end.
Proof.
  unfold mbind, Prog_bind.
  revert w. induction p as [a|X e k IH]; intros w; simpl.
  - destruct (run h (f a) w) as [[[b w''] t']|]; reflexivity.
  - destruct (h X e w) as [[x w']|]; [|reflexivity].
    rewrite IH. destruct (run h (k x) w') as [[[a w''] t]|]; [|reflexivity].
    destruct (run h (f a) w'') as [[[b w3] t']|]; reflexivity.
Qed.

Lemma run_trigger {X} (e : E X) (w : W) :
  run h (trigger e) w =
  match h X e w with
  | None => None
  | Some (x, w') => Some (x, w', [existT X e])
  end.
Proof. simpl. destruct (h X e w) as [[x w']|]; reflexivity. Qed.
End Facts.
End ProgFacts.

(** ** Package [network] *)

Module NetworkSpec.
Import GoStrings GoStringsFacts Provider Network ProgFacts.

(** *** The loops over the association list, and the lock around a section *)

Lemma SliceContainsValue_elem_of (l : list string) (v : string) :
  SliceContainsValue l v = true <-> v ∈ l.
Proof.
  unfold SliceContainsValue. rewrite existsb_exists. split.
  - intros (x & Hin & Heq). apply String.eqb_eq in Heq. subst.
    now apply list_elem_of_In.
  - intros Hin. exists v. split; [now apply list_elem_of_In | apply String.eqb_refl].
Qed.

(** Read's search loop finds exactly the members. *)
Lemma exists_loop_elem_of (l : list string) (v : string) (acc : bool) :
  fold_left (fun exists_ groupId => if String.eqb groupId v then true else exists_) l acc
  = acc || bool_decide (v ∈ l).
Proof.
  revert acc. induction l as [|x l IH]; intros acc; cbn [fold_left].
  - rewrite bool_decide_false by apply not_elem_of_nil. now rewrite orb_false_r.
  - rewrite IH. destruct (String.eqb_spec x v) as [->|Hne].
    + rewrite (bool_decide_true (v ∈ v :: l)) by apply list_elem_of_here.
      now rewrite orb_true_r.
    + f_equal. apply bool_decide_ext. rewrite elem_of_cons. intuition congruence.
Qed.

(** Delete's copying loop is a filter. *)
Lemma remove_loop_filter (l : list string) (v : string) (acc : list string) :
  fold_left (fun ids x => if negb (String.eqb x v) then ids ++ [x] else ids) l acc
  = acc ++ filter (fun x => x <> v) l.
Proof.
  revert acc. induction l as [|x l IH]; intros acc; cbn [fold_left].
  - now rewrite app_nil_r.
  - rewrite IH, filter_cons. destruct (String.eqb_spec x v) as [->|Hne]; simpl.
    + now rewrite decide_False by auto.
    + rewrite decide_True by auto. now rewrite <- app_assoc.
Qed.

(** Taking and releasing a free lock leaves the registry as it was. *)
Lemma unlock_lock (w : World) (key : string) :
  key ∉ held w ->
  ({[key]} ∪ held w) ∖ {[key]} = held w.
Proof.
  intros Hfree. apply set_eq. intros x.
  rewrite elem_of_difference, elem_of_union, elem_of_singleton.
  split; [tauto|]. intros Hx. split; [tauto|]. congruence.
Qed.

(** A handler's locked section, run alone from a free lock. *)
Lemma run_locked (name resourceType : string) (body : Prog Event Result) (w : World) :
  lockKey name resourceType ∉ held w ->
  run handle (trigger (LockByName name resourceType);;
              result ← body;
              trigger (UnlockByName name resourceType);;
              Ret result) w
  = match run handle body (setHeld ({[lockKey name resourceType]} ∪ held w) w) with
    | Some (result, w', t) =>
        Some (result, setHeld (held w' ∖ {[lockKey name resourceType]}) w',
              existT _ (LockByName name resourceType)
                :: t ++ [existT _ (UnlockByName name resourceType)])
    | None => None
    end.
Proof.
  intros Hfree. rewrite run_bind, run_trigger. cbn [handle].
  rewrite bool_decide_false by exact Hfree.
  rewrite run_bind.
  destruct (run handle body _) as [[[result w'] t]|]; [|reflexivity].
  rewrite run_bind, run_trigger. cbn. reflexivity.
Qed.

(** After the section the registry is as before, whatever the section did
    to the interfaces. *)
Lemma released (w : World) (key : string) m :
  key ∉ held w ->
  setHeld (held (setInterfaces m (setHeld ({[key]} ∪ held w) w)) ∖ {[key]})
          (setInterfaces m (setHeld ({[key]} ∪ held w) w))
  = setInterfaces m w.
Proof.
  intros Hfree. unfold setHeld, setInterfaces. cbn.
  rewrite (unlock_lock w key Hfree). reflexivity.
Qed.

#[local] Arguments SliceContainsValue : simpl never.
#[local] Arguments resourceNetworkInterfaceApplicationSecurityGroupAssociationRead : simpl never.

(** *** Creating an association *)

Section Association.
Variables (d : ResourceData) (id : ResourceID).
Let networkInterfaceId := Get d "network_interface_id".
Let applicationSecurityGroupId := Get d "application_security_group_id".
Let name := PathAt id "networkInterfaces".
Let resourceGroup := ResourceGroup id.

Lemma read_after_create (w : World) (nic : Interface) (groups : list string)
      (d1 : ResourceData) :
  ParseAzureResourceID networkInterfaceId = Some id ->
  Id d1 = Sprintf_pipe networkInterfaceId applicationSecurityGroupId ->
  interfaces w !! (resourceGroup, name) = Some nic ->
  InterfacePropertiesFormat nic
    = Some {| IPConfigurations := Some {| ApplicationSecurityGroups := groups |} |} ->
  applicationSecurityGroupId ∈ groups ->
  failing w OpInterfacesGet = None ->
  exists d' err t,
    run handle (resourceNetworkInterfaceApplicationSecurityGroupAssociationRead d1) w
    = Some ((d', err), w, t)
    /\ Id d' = Id d1
    /\ Forall (fun c => isMutation c = false) t
    /\ (ContainsByte networkInterfaceId pipe = false ->
        ContainsByte applicationSecurityGroupId pipe = false -> err = None).
Proof.
  intros Hparse Hid Hnic Hprops Hin Hget.
  unfold resourceNetworkInterfaceApplicationSecurityGroupAssociationRead.
  rewrite Hid.
  destruct (length (Split (Sprintf_pipe networkInterfaceId applicationSecurityGroupId) pipe) =? 2)%nat
    eqn:Hlen; cbn [negb].
  - apply Nat.eqb_eq, Split_join_two in Hlen as [Ha Hb].
    rewrite (Split_Sprintf_pipe _ _ Ha Hb). cbn [nth].
    rewrite Hparse. fold name resourceGroup.
    rewrite run_bind, run_trigger. cbn [handle].
    rewrite Hget, Hnic. cbn. rewrite Hprops. cbn.
    rewrite exists_loop_elem_of, bool_decide_true by assumption. cbn.
    eexists _, _, _. split; [reflexivity|]. split; [exact Hid|].
    split; [|reflexivity]. repeat constructor.
  - eexists _, _, _. split; [reflexivity|]. split; [exact Hid|].
    split; [constructor|]. intros Ha Hb.
    rewrite (Split_Sprintf_pipe _ _ Ha Hb) in Hlen. discriminate.
Qed.

Lemma no_mutation_filter (t : list (@Call Event)) :
  Forall (fun c => isMutation c = false) t -> List.filter isMutation t = [].
Proof.
  induction 1 as [|c t Hc _ IH]; simpl; [reflexivity|]. now rewrite Hc.
Qed.

Lemma create_locked (w : World) (nic : Interface) (groups : list string) :
  ParseAzureResourceID networkInterfaceId = Some id ->
  interfaces w !! (resourceGroup, name) = Some nic ->
  InterfacePropertiesFormat nic
    = Some {| IPConfigurations := Some {| ApplicationSecurityGroups := groups |} |} ->
  applicationSecurityGroupId ∉ groups ->
  (forall op, failing w op = None) ->
  exists d' err t,
    run handle (associationCreateLocked d networkInterfaceId applicationSecurityGroupId
                  name resourceGroup) w
    = Some ((d', err),
            setInterfaces (<[(resourceGroup, name) := withGroups nic (groups ++ [applicationSecurityGroupId])]> (interfaces w)) w,
            t)
    /\ Id d' = Sprintf_pipe networkInterfaceId applicationSecurityGroupId
    /\ List.filter isMutation t
       = [existT _ (InterfacesCreateOrUpdate resourceGroup name (withGroups nic (groups ++ [applicationSecurityGroupId])))]
    /\ (ContainsByte networkInterfaceId pipe = false ->
        ContainsByte applicationSecurityGroupId pipe = false -> err = None).
Proof.
  intros Hparse Hnic Hprops Hnin Hok.
  unfold associationCreateLocked.
  rewrite run_bind, run_trigger. cbn [handle].
  rewrite Hok, Hnic. cbn. rewrite Hprops. cbn.
  destruct (SliceContainsValue groups applicationSecurityGroupId) eqn:Hc.
  { apply SliceContainsValue_elem_of in Hc. contradiction. }
  cbn. rewrite Hok. cbn. rewrite Hok.
  fold (withGroups nic (groups ++ [applicationSecurityGroupId])).
  destruct (read_after_create
              (setInterfaces
                 (<[(resourceGroup, name) :=
                      withGroups nic (groups ++ [applicationSecurityGroupId])]>
                    (interfaces w)) w)
              (withGroups nic (groups ++ [applicationSecurityGroupId]))
              (groups ++ [applicationSecurityGroupId])
              (SetId (Sprintf_pipe networkInterfaceId applicationSecurityGroupId) d))
    as (d' & err & t & Hrun & Hid & Hmut & Herr).
  - exact Hparse.
  - reflexivity.
  - cbn. apply lookup_insert_eq.
  - reflexivity.
  - apply elem_of_app. right. apply list_elem_of_here.
  - apply Hok.
  - unfold withGroups in *. rewrite Hrun. eexists _, _, _. split; [reflexivity|].
    split; [rewrite Hid; reflexivity|]. split; [|exact Herr].
    cbn. now rewrite (no_mutation_filter t Hmut).
Qed.

End Association.


Lemma not_found_404 : ResponseWasNotFound (Some 404%Z) = true.
Proof. reflexivity. Qed.

Lemma not_found_other (status : Z) :
  status <> 404%Z -> ResponseWasNotFound (Some status) = false.
Proof. intros H. unfold ResponseWasNotFound. apply bool_decide_false. congruence. Qed.

(** *** Deleting an association *)

Section AssociationDelete.
Variables (d : ResourceData) (id : ResourceID).
Variables (networkInterfaceId applicationSecurityGroupId : string).
Let name := PathAt id "networkInterfaces".
Let resourceGroup := ResourceGroup id.

(** Delete's section on an interface that is there: the list is written
    back without the id. *)
Lemma delete_locked (w : World) (nic : Interface) (groups : list string) :
  interfaces w !! (resourceGroup, name) = Some nic ->
  InterfacePropertiesFormat nic
    = Some {| IPConfigurations := Some {| ApplicationSecurityGroups := groups |} |} ->
  (forall op, failing w op = None) ->
  let written :=
    withGroups nic (filter (fun v => v <> applicationSecurityGroupId) groups) in
  run handle (associationDeleteLocked d applicationSecurityGroupId name resourceGroup) w
  = Some ((d, None),
          setInterfaces (<[(resourceGroup, name) := written]> (interfaces w)) w,
          [existT _ (InterfacesGet resourceGroup name "");
           existT _ (InterfacesCreateOrUpdate resourceGroup name written);
           existT _ (WaitForCompletionRef {| FutureResponse := Some 200%Z |})]).
Proof.
  intros Hnic Hprops Hok written.
  unfold associationDeleteLocked.
  rewrite run_bind, run_trigger. cbn [handle].
  rewrite Hok, Hnic. cbn. rewrite Hprops. cbn.
  rewrite remove_loop_filter. cbn [app].
  repeat (rewrite Hok; cbn). reflexivity.
Qed.

(** Delete on an interface that is there, from a free lock. *)
Lemma delete_run (w : World) (nic : Interface) (groups : list string) :
  Split (Id d) pipe = [networkInterfaceId; applicationSecurityGroupId] ->
  ParseAzureResourceID networkInterfaceId = Some id ->
  interfaces w !! (resourceGroup, name) = Some nic ->
  InterfacePropertiesFormat nic
    = Some {| IPConfigurations := Some {| ApplicationSecurityGroups := groups |} |} ->
  (forall op, failing w op = None) ->
  lockKey name networkInterfaceResourceName ∉ held w ->
  exists t,
    run handle (resourceNetworkInterfaceApplicationSecurityGroupAssociationDelete d) w
    = Some ((d, None),
            setInterfaces
              (<[(resourceGroup, name) :=
                   withGroups nic
                     (filter (fun v => v <> applicationSecurityGroupId) groups)]>
                 (interfaces w)) w,
            t).
Proof.
  intros Hsplit Hparse Hnic Hprops Hok Hfree.
  unfold resourceNetworkInterfaceApplicationSecurityGroupAssociationDelete.
  rewrite Hsplit. cbn [length Nat.eqb negb nth]. rewrite Hparse.
  fold name resourceGroup.
  rewrite (run_locked _ _ _ _ Hfree).
  rewrite (delete_locked
             (setHeld ({[lockKey name networkInterfaceResourceName]} ∪ held w) w)
             nic groups Hnic Hprops Hok).
  rewrite (released w _ _ Hfree). eauto.
Qed.

(** C2: when the parent interface exists with an association list (and the
    service fails nothing and the lock is free), Delete writes the interface
    back with exactly the original list without the occurrences of the
    target id, the other entries in their order; it takes the lock first,
    releases it last, leaves the registry as it found it and returns nil. *)
Theorem delete_writes_filtered_list (w : World) (nic : Interface)
    (groups : list string) :
  Split (Id d) pipe = [networkInterfaceId; applicationSecurityGroupId] ->
  ParseAzureResourceID networkInterfaceId = Some id ->
  interfaces w !! (resourceGroup, name) = Some nic ->
  InterfacePropertiesFormat nic
    = Some {| IPConfigurations := Some {| ApplicationSecurityGroups := groups |} |} ->
  (forall op, failing w op = None) ->
  lockKey name networkInterfaceResourceName ∉ held w ->
  let written :=
    withGroups nic (filter (fun v => v <> applicationSecurityGroupId) groups) in
  run handle (resourceNetworkInterfaceApplicationSecurityGroupAssociationDelete d) w
  = Some ((d, None),
          setInterfaces (<[(resourceGroup, name) := written]> (interfaces w)) w,
          [existT _ (LockByName name networkInterfaceResourceName);
           existT _ (InterfacesGet resourceGroup name "");
           existT _ (InterfacesCreateOrUpdate resourceGroup name written);
           existT _ (WaitForCompletionRef {| FutureResponse := Some 200%Z |});
           existT _ (UnlockByName name networkInterfaceResourceName)]).
Proof.
  intros Hsplit Hparse Hnic Hprops Hok Hfree written.
  unfold resourceNetworkInterfaceApplicationSecurityGroupAssociationDelete.
  rewrite Hsplit. cbn [length Nat.eqb negb nth]. rewrite Hparse.
  fold name resourceGroup.
  rewrite (run_locked _ _ _ _ Hfree).
  rewrite (delete_locked
             (setHeld ({[lockKey name networkInterfaceResourceName]} ∪ held w) w)
             nic groups Hnic Hprops Hok).
  rewrite (released w _ _ Hfree). reflexivity.
Qed.

(** Delete when the fetch of the parent interface observes NotFound. *)
Lemma delete_parent_not_found (w : World) :
  Split (Id d) pipe = [networkInterfaceId; applicationSecurityGroupId] ->
  ParseAzureResourceID networkInterfaceId = Some id ->
  failing w OpInterfacesGet = Some 404%Z
  \/ (failing w OpInterfacesGet = None /\ interfaces w !! (resourceGroup, name) = None) ->
  lockKey name networkInterfaceResourceName ∉ held w ->
  run handle (resourceNetworkInterfaceApplicationSecurityGroupAssociationDelete d) w
  = Some ((d, Some (ErrNetworkInterfaceNotFound name resourceGroup)), w,
          [existT _ (LockByName name networkInterfaceResourceName);
           existT _ (InterfacesGet resourceGroup name "");
           existT _ (UnlockByName name networkInterfaceResourceName)]).
Proof.
  intros Hsplit Hparse Hnf Hfree.
  unfold resourceNetworkInterfaceApplicationSecurityGroupAssociationDelete.
  rewrite Hsplit. cbn [length Nat.eqb negb nth]. rewrite Hparse.
  fold name resourceGroup.
  rewrite (run_locked _ _ _ _ Hfree).
  unfold associationDeleteLocked.
  rewrite run_bind, run_trigger. cbn [handle]. cbn [failing setHeld interfaces].
  destruct Hnf as [Hget|[Hget Hnone]].
  - rewrite Hget. cbn. rewrite not_found_404. cbn.
    rewrite (unlock_lock w _ Hfree). destruct w; reflexivity.
  - rewrite Hget, Hnone. cbn. rewrite not_found_404. cbn.
    rewrite (unlock_lock w _ Hfree). destruct w; reflexivity.
Qed.
End AssociationDelete.

Lemma delete_writes_filtered_list_witness :
  run handle (resourceNetworkInterfaceApplicationSecurityGroupAssociationDelete
                Examples.association)
      (Examples.serviceWith [Examples.asg1; Examples.asg2])
  = Some ((Examples.association, None),
          setInterfaces
            (<[("rg1", "nic1") :=
                 withGroups (Examples.nicWith [Examples.asg1; Examples.asg2])
                   [Examples.asg2]]>
               (interfaces (Examples.serviceWith [Examples.asg1; Examples.asg2])))
            (Examples.serviceWith [Examples.asg1; Examples.asg2]),
          [existT _ (LockByName "nic1" networkInterfaceResourceName);
           existT _ (InterfacesGet "rg1" "nic1" "");
           existT _ (InterfacesCreateOrUpdate "rg1" "nic1"
                       (withGroups (Examples.nicWith [Examples.asg1; Examples.asg2])
                          [Examples.asg2]));
           existT _ (WaitForCompletionRef {| FutureResponse := Some 200%Z |});
           existT _ (UnlockByName "nic1" networkInterfaceResourceName)]).
Proof.
  apply (delete_writes_filtered_list Examples.association Examples.nic1ID
           Examples.nic1 Examples.asg1
           (Examples.serviceWith [Examples.asg1; Examples.asg2])
           (Examples.nicWith [Examples.asg1; Examples.asg2])
           [Examples.asg1; Examples.asg2]).
  - vm_compute. reflexivity.
  - vm_compute. reflexivity.
  - vm_compute. reflexivity.
  - reflexivity.
  - reflexivity.
  - apply not_elem_of_empty.
Defined.

(** *** Malformed composite identifiers *)

Lemma parse_empty : ParseAzureResourceID "" = None.
Proof. reflexivity. Qed.

(** C3, as the code has it: when the split of the identifier on the pipe
    does not give exactly two parts (one part, or three and more), or gives
    two with the first one empty, Read and Delete fail with a
    malformed-identifier error, make no call at all and leave the local
    state and the service as they were.  An empty second part is not
    rejected. *)
Theorem malformed_identifier_rejected (d : ResourceData) (w : World) :
  length (Split (Id d) pipe) <> 2%nat \/ nth 0 (Split (Id d) pipe) "" = "" ->
  exists e,
    (e = ErrExpectedIDFormat (Id d) \/ e = ErrParseResourceID "")
    /\ run handle (resourceNetworkInterfaceApplicationSecurityGroupAssociationRead d) w
       = Some ((d, Some e), w, [])
    /\ run handle (resourceNetworkInterfaceApplicationSecurityGroupAssociationDelete d) w
       = Some ((d, Some e), w, []).
Proof.
  intros Hbad.
  unfold resourceNetworkInterfaceApplicationSecurityGroupAssociationRead,
    resourceNetworkInterfaceApplicationSecurityGroupAssociationDelete.
  destruct (length (Split (Id d) pipe) =? 2)%nat eqn:Hlen; cbn [negb].
  - destruct Hbad as [Hne|Hempty]; [now apply Nat.eqb_eq in Hlen|].
    rewrite Hempty, parse_empty. exists (ErrParseResourceID "").
    split; [now right|]. split; reflexivity.
  - exists (ErrExpectedIDFormat (Id d)). split; [now left|]. split; reflexivity.
Qed.

Lemma malformed_identifier_rejected_witness :
  exists e,
    (e = ErrExpectedIDFormat Examples.nic1 \/ e = ErrParseResourceID "")
    /\ run handle (resourceNetworkInterfaceApplicationSecurityGroupAssociationRead
                    (SetId Examples.nic1 Examples.newAssociation))
           (Examples.serviceWith [Examples.asg1])
       = Some ((SetId Examples.nic1 Examples.newAssociation, Some e),
               Examples.serviceWith [Examples.asg1], [])
    /\ run handle (resourceNetworkInterfaceApplicationSecurityGroupAssociationDelete
                    (SetId Examples.nic1 Examples.newAssociation))
           (Examples.serviceWith [Examples.asg1])
       = Some ((SetId Examples.nic1 Examples.newAssociation, Some e),
               Examples.serviceWith [Examples.asg1], []).
Proof.
  apply (malformed_identifier_rejected (SetId Examples.nic1 Examples.newAssociation)
           (Examples.serviceWith [Examples.asg1])).
  left. vm_compute. discriminate.
Defined.

(** An identifier whose second part is empty: Read fetches the interface
    and clears the identifier, Delete fetches the interface and writes it
    back; neither reports the identifier as malformed. *)
Lemma empty_second_part_accepted :
  Split (Id Examples.truncatedAssociation) pipe = [Examples.nic1; ""]
  /\ run handle (resourceNetworkInterfaceApplicationSecurityGroupAssociationRead
                  Examples.truncatedAssociation)
         (Examples.serviceWith [Examples.asg1])
     = Some ((SetId "" Examples.truncatedAssociation, None),
             Examples.serviceWith [Examples.asg1],
             [existT _ (InterfacesGet "rg1" "nic1" "")])
  /\ run handle (resourceNetworkInterfaceApplicationSecurityGroupAssociationDelete
                  Examples.truncatedAssociation)
         (Examples.serviceWith [Examples.asg1])
     = Some ((Examples.truncatedAssociation, None),
             setInterfaces
               (<[("rg1", "nic1") :=
                    withGroups (Examples.nicWith [Examples.asg1]) [Examples.asg1]]>
                  (interfaces (Examples.serviceWith [Examples.asg1])))
               (Examples.serviceWith [Examples.asg1]),
             [existT _ (LockByName "nic1" networkInterfaceResourceName);
              existT _ (InterfacesGet "rg1" "nic1" "");
              existT _ (InterfacesCreateOrUpdate "rg1" "nic1"
                          (withGroups (Examples.nicWith [Examples.asg1])
                             [Examples.asg1]));
              existT _ (WaitForCompletionRef {| FutureResponse := Some 200%Z |});
              existT _ (UnlockByName "nic1" networkInterfaceResourceName)]).
Proof. repeat split; vm_compute; reflexivity. Qed.

(** *** Create on something that is already there, or on a missing parent *)

(** C5: a Create of a new resource whose existence check finds the resource
    returns the import error and changes nothing on the service: for an
    association, when the id is already in the parent interface's list; for
    an authorization, when the service holds one with a non-empty id.  The
    only calls are the lock, the fetch and the unlock. *)
Theorem create_existing_is_import_error (d : ResourceData) (w : World) :
  (forall (id : ResourceID) (nic : Interface) (groups : list string),
      ParseAzureResourceID (Get d "network_interface_id") = Some id ->
      interfaces w !! (ResourceGroup id, PathAt id "networkInterfaces") = Some nic ->
      InterfacePropertiesFormat nic
        = Some {| IPConfigurations := Some {| ApplicationSecurityGroups := groups |} |} ->
      Get d "application_security_group_id" ∈ groups ->
      failing w OpInterfacesGet = None ->
      lockKey (PathAt id "networkInterfaces") networkInterfaceResourceName ∉ held w ->
      run handle (resourceNetworkInterfaceApplicationSecurityGroupAssociationCreate d) w
      = Some ((d, Some (ImportAsExistsError
                          "azurerm_network_interface_application_security_group_association"
                          (Sprintf_pipe (Get d "network_interface_id")
                             (Get d "application_security_group_id")))),
              w,
              [existT _ (LockByName (PathAt id "networkInterfaces")
                           networkInterfaceResourceName);
               existT _ (InterfacesGet (ResourceGroup id)
                           (PathAt id "networkInterfaces") "");
               existT _ (UnlockByName (PathAt id "networkInterfaces")
                           networkInterfaceResourceName)]))
  /\ (forall (existing : ExpressRouteCircuitAuthorization) (id : string),
      IsNewResource d = true ->
      authorizations w !! (Get d "resource_group_name",
                           Get d "express_route_circuit_name", Get d "name")
        = Some existing ->
      AuthorizationID existing = Some id ->
      id <> "" ->
      failing w OpAuthsGet = None ->
      lockKey (Get d "express_route_circuit_name") expressRouteCircuitResourceName
        ∉ held w ->
      run handle (resourceExpressRouteCircuitAuthorizationCreate d) w
      = Some ((d, Some (ImportAsExistsError
                          "azurerm_express_route_circuit_authorization" id)),
              w,
              [existT _ (LockByName (Get d "express_route_circuit_name")
                           expressRouteCircuitResourceName);
               existT _ (ExpressRouteAuthsGet (Get d "resource_group_name")
                           (Get d "express_route_circuit_name") (Get d "name"));
               existT _ (UnlockByName (Get d "express_route_circuit_name")
                           expressRouteCircuitResourceName)])).
Proof.
  split.
  - intros id nic groups Hparse Hnic Hprops Hin Hget Hfree.
    unfold resourceNetworkInterfaceApplicationSecurityGroupAssociationCreate.
    rewrite Hparse. rewrite (run_locked _ _ _ _ Hfree).
    unfold associationCreateLocked.
    rewrite run_bind, run_trigger. cbn [handle]. cbn [failing setHeld interfaces].
    rewrite Hget, Hnic. cbn. rewrite Hprops. cbn.
    apply SliceContainsValue_elem_of in Hin. rewrite Hin. cbn.
    rewrite (unlock_lock w _ Hfree). destruct w; reflexivity.
  - intros existing id Hnew Hauth Hid Hne Hget Hfree.
    unfold resourceExpressRouteCircuitAuthorizationCreate.
    rewrite (run_locked _ _ _ _ Hfree).
    unfold authorizationCreateLocked, authorizationImportCheck.
    rewrite Hnew. rewrite !run_bind, run_trigger. cbn [handle].
    cbn [failing setHeld authorizations].
    rewrite Hget, Hauth. cbn. rewrite Hid.
    apply String.eqb_neq in Hne. rewrite Hne. cbn.
    rewrite (unlock_lock w _ Hfree). destruct w; reflexivity.
Qed.

Lemma create_existing_is_import_error_witness :
  run handle (resourceNetworkInterfaceApplicationSecurityGroupAssociationCreate
                Examples.newAssociation)
      (Examples.serviceWith [Examples.asg1])
  = Some ((Examples.newAssociation,
           Some (ImportAsExistsError
                   "azurerm_network_interface_application_security_group_association"
                   (Sprintf_pipe Examples.nic1 Examples.asg1))),
          Examples.serviceWith [Examples.asg1],
          [existT _ (LockByName "nic1" networkInterfaceResourceName);
           existT _ (InterfacesGet "rg1" "nic1" "");
           existT _ (UnlockByName "nic1" networkInterfaceResourceName)])
  /\ run handle (resourceExpressRouteCircuitAuthorizationCreate
                   Examples.newAuthorization)
         Examples.serviceWithAuthorization
     = Some ((Examples.newAuthorization,
              Some (ImportAsExistsError
                      "azurerm_express_route_circuit_authorization" Examples.auth1)),
             Examples.serviceWithAuthorization,
             [existT _ (LockByName "c1" expressRouteCircuitResourceName);
              existT _ (ExpressRouteAuthsGet "rg1" "c1" "a1");
              existT _ (UnlockByName "c1" expressRouteCircuitResourceName)]).
Proof.
  split.
  - apply (proj1 (create_existing_is_import_error Examples.newAssociation
                    (Examples.serviceWith [Examples.asg1]))
             Examples.nic1ID (Examples.nicWith [Examples.asg1]) [Examples.asg1]).
    + vm_compute. reflexivity.
    + vm_compute. reflexivity.
    + reflexivity.
    + apply list_elem_of_here.
    + reflexivity.
    + apply not_elem_of_empty.
  - apply (proj2 (create_existing_is_import_error Examples.newAuthorization
                    Examples.serviceWithAuthorization)
             {| AuthorizationResponse := None;
                AuthorizationID := Some Examples.auth1;
                AuthorizationPropertiesFormat := None |} Examples.auth1).
    + reflexivity.
    + vm_compute. reflexivity.
    + reflexivity.
    + discriminate.
    + reflexivity.
    + apply not_elem_of_empty.
Defined.

(** C7, as the code has it: when the fetch of the parent interface before
    the write observes NotFound, Create clears the identifier and returns
    nil; it writes nothing to the service.  A fetch that fails in another
    way is fatal. *)
Theorem create_missing_parent_clears_identifier (d : ResourceData) (w : World)
    (id : ResourceID) :
  ParseAzureResourceID (Get d "network_interface_id") = Some id ->
  lockKey (PathAt id "networkInterfaces") networkInterfaceResourceName ∉ held w ->
  (failing w OpInterfacesGet = Some 404%Z
   \/ (failing w OpInterfacesGet = None
       /\ interfaces w !! (ResourceGroup id, PathAt id "networkInterfaces") = None) ->
   run handle (resourceNetworkInterfaceApplicationSecurityGroupAssociationCreate d) w
   = Some ((SetId "" d, None), w,
           [existT _ (LockByName (PathAt id "networkInterfaces")
                        networkInterfaceResourceName);
            existT _ (InterfacesGet (ResourceGroup id)
                        (PathAt id "networkInterfaces") "");
            existT _ (UnlockByName (PathAt id "networkInterfaces")
                        networkInterfaceResourceName)]))
  /\ (forall status,
        failing w OpInterfacesGet = Some status ->
        status <> 404%Z ->
        run handle (resourceNetworkInterfaceApplicationSecurityGroupAssociationCreate d) w
        = Some ((d, Some (ErrRetrievingNetworkInterface
                            (PathAt id "networkInterfaces") (ResourceGroup id)
                            {| sdkStatus := status |})), w,
                [existT _ (LockByName (PathAt id "networkInterfaces")
                             networkInterfaceResourceName);
                 existT _ (InterfacesGet (ResourceGroup id)
                             (PathAt id "networkInterfaces") "");
                 existT _ (UnlockByName (PathAt id "networkInterfaces")
                             networkInterfaceResourceName)])).
Proof.
  intros Hparse Hfree.
  unfold resourceNetworkInterfaceApplicationSecurityGroupAssociationCreate.
  rewrite Hparse. rewrite (run_locked _ _ _ _ Hfree).
  unfold associationCreateLocked.
  rewrite run_bind, run_trigger. cbn [handle]. cbn [failing setHeld interfaces].
  split.
  - intros [Hget|[Hget Hnone]].
    + rewrite Hget. cbn. rewrite not_found_404. cbn.
      rewrite (unlock_lock w _ Hfree). destruct w; reflexivity.
    + rewrite Hget, Hnone. cbn. rewrite not_found_404. cbn.
      rewrite (unlock_lock w _ Hfree). destruct w; reflexivity.
  - intros status Hget Hother.
    rewrite Hget. cbn. rewrite (not_found_other status Hother). cbn.
    rewrite (unlock_lock w _ Hfree). destruct w; reflexivity.
Qed.

Lemma create_missing_parent_clears_identifier_witness :
  run handle (resourceNetworkInterfaceApplicationSecurityGroupAssociationCreate
                Examples.newAssociation) Examples.emptyService
  = Some ((SetId "" Examples.newAssociation, None), Examples.emptyService,
          [existT _ (LockByName "nic1" networkInterfaceResourceName);
           existT _ (InterfacesGet "rg1" "nic1" "");
           existT _ (UnlockByName "nic1" networkInterfaceResourceName)]).
Proof.
  apply (create_missing_parent_clears_identifier Examples.newAssociation
           Examples.emptyService Examples.nic1ID).
  - vm_compute. reflexivity.
  - apply not_elem_of_empty.
  - right. split; reflexivity.
Defined.

(** Create with the parent interface missing: no error comes back. *)
Lemma create_missing_parent_returns_nil :
  interfaces Examples.emptyService !! ("rg1", "nic1") = None
  /\ exists d' w' t,
      run handle (resourceNetworkInterfaceApplicationSecurityGroupAssociationCreate
                    Examples.newAssociation) Examples.emptyService
      = Some ((d', None), w', t).
Proof.
  split; [reflexivity|]. eexists _, _, _. vm_compute. reflexivity.
Qed.

(** *** Delete of something that is already gone *)

Lemma filter_absent (l : list string) (v : string) :
  v ∉ l -> filter (fun x => x <> v) l = l.
Proof.
  induction l as [|x l IH]; intros Hnin; [reflexivity|].
  apply not_elem_of_cons in Hnin as [Hne Hnin].
  rewrite filter_cons, decide_True by congruence. now rewrite IH.
Qed.

(** Delete of an authorization whose delete call observes NotFound. *)
Lemma authorization_delete_not_found (d : ResourceData) (w : World) (id : ResourceID) :
  let key := (ResourceGroup id, PathAt id "expressRouteCircuits",
              PathAt id "authorizations") in
  ParseAzureResourceID (Id d) = Some id ->
  lockKey (PathAt id "expressRouteCircuits") expressRouteCircuitResourceName ∉ held w ->
  failing w OpAuthsDelete = Some 404%Z
  \/ (failing w OpAuthsDelete = None /\ authorizations w !! key = None) ->
  exists t,
    run handle (resourceExpressRouteCircuitAuthorizationDelete d) w
    = Some ((d, None), w, t).
Proof.
  intros key Hparse Hfree Hnf.
  unfold resourceExpressRouteCircuitAuthorizationDelete.
  rewrite Hparse. rewrite (run_locked _ _ _ _ Hfree).
  unfold authorizationDeleteLocked.
  rewrite run_bind, run_trigger. cbn [handle]. cbn [failing setHeld authorizations].
  destruct Hnf as [Hdel|[Hdel Hnone]].
  - rewrite Hdel. cbn. rewrite not_found_404. cbn.
    rewrite (unlock_lock w _ Hfree). eexists. destruct w; reflexivity.
  - rewrite Hdel. fold key. rewrite Hnone. cbn. rewrite not_found_404. cbn.
    rewrite (unlock_lock w _ Hfree). eexists. destruct w; reflexivity.
Qed.

(** Delete of an authorization whose wait observes NotFound. *)
Lemma authorization_wait_not_found (d : ResourceData) (w : World) (id : ResourceID) :
  ParseAzureResourceID (Id d) = Some id ->
  lockKey (PathAt id "expressRouteCircuits") expressRouteCircuitResourceName ∉ held w ->
  failing w OpAuthsDelete = None ->
  failing w OpWait = Some 404%Z ->
  exists w' t,
    run handle (resourceExpressRouteCircuitAuthorizationDelete d) w
    = Some ((d, None), w', t).
Proof.
  intros Hparse Hfree Hdel Hwait.
  unfold resourceExpressRouteCircuitAuthorizationDelete.
  rewrite Hparse. rewrite (run_locked _ _ _ _ Hfree).
  unfold authorizationDeleteLocked.
  rewrite run_bind, run_trigger. cbn [handle]. cbn [failing setHeld authorizations].
  rewrite Hdel. destruct (authorizations w !! _); cbn.
  - rewrite Hwait. cbn. rewrite not_found_404. cbn. eexists _, _. reflexivity.
  - rewrite not_found_404. cbn. eexists _, _. reflexivity.
Qed.

(** Delete of an authorization that the service holds, nothing failing:
    afterwards the service does not hold it. *)
Lemma authorization_delete_present (d : ResourceData) (w : World) (id : ResourceID)
    (existing : ExpressRouteCircuitAuthorization) :
  let key := (ResourceGroup id, PathAt id "expressRouteCircuits",
              PathAt id "authorizations") in
  ParseAzureResourceID (Id d) = Some id ->
  lockKey (PathAt id "expressRouteCircuits") expressRouteCircuitResourceName ∉ held w ->
  (forall op, failing w op = None) ->
  authorizations w !! key = Some existing ->
  exists t,
    run handle (resourceExpressRouteCircuitAuthorizationDelete d) w
    = Some ((d, None), setAuthorizations (delete key (authorizations w)) w, t).
Proof.
  intros key Hparse Hfree Hok Hsome.
  unfold resourceExpressRouteCircuitAuthorizationDelete.
  rewrite Hparse. rewrite (run_locked _ _ _ _ Hfree).
  unfold authorizationDeleteLocked.
  rewrite run_bind, run_trigger. cbn [handle]. cbn [failing setHeld authorizations].
  rewrite Hok. fold key. rewrite Hsome. cbn. rewrite Hok. cbn.
  rewrite (unlock_lock w _ Hfree). eexists. reflexivity.
Qed.

(** C6, as the code has it.  Delete of an authorization returns nil when
    its delete call or its wait observes NotFound, so a second Delete of
    the same identifier succeeds.  Delete of an association returns nil when
    the parent interface is there and the id is already out of its list;
    when the fetch of the parent interface observes NotFound it returns an
    error. *)
Theorem delete_of_absent (d : ResourceData) (w : World) (id : ResourceID) :
  (ParseAzureResourceID (Id d) = Some id ->
   lockKey (PathAt id "expressRouteCircuits") expressRouteCircuitResourceName ∉ held w ->
   (failing w OpAuthsDelete = Some 404%Z
    \/ (failing w OpAuthsDelete = None
        /\ authorizations w !! (ResourceGroup id, PathAt id "expressRouteCircuits",
                                PathAt id "authorizations") = None)
    \/ (failing w OpAuthsDelete = None /\ failing w OpWait = Some 404%Z) ->
    exists w' t,
      run handle (resourceExpressRouteCircuitAuthorizationDelete d) w
      = Some ((d, None), w', t))
   /\ ((forall op, failing w op = None) ->
       exists w1 t1 t2,
         run handle (resourceExpressRouteCircuitAuthorizationDelete d) w
         = Some ((d, None), w1, t1)
         /\ run handle (resourceExpressRouteCircuitAuthorizationDelete d) w1
            = Some ((d, None), w1, t2)))
  /\ (forall (networkInterfaceId applicationSecurityGroupId : string),
      Split (Id d) pipe = [networkInterfaceId; applicationSecurityGroupId] ->
      ParseAzureResourceID networkInterfaceId = Some id ->
      lockKey (PathAt id "networkInterfaces") networkInterfaceResourceName ∉ held w ->
      (forall (nic : Interface) (groups : list string),
          interfaces w !! (ResourceGroup id, PathAt id "networkInterfaces") = Some nic ->
          InterfacePropertiesFormat nic
            = Some {| IPConfigurations :=
                        Some {| ApplicationSecurityGroups := groups |} |} ->
          applicationSecurityGroupId ∉ groups ->
          (forall op, failing w op = None) ->
          exists t,
            run handle (resourceNetworkInterfaceApplicationSecurityGroupAssociationDelete d) w
            = Some ((d, None),
                    setInterfaces
                      (<[(ResourceGroup id, PathAt id "networkInterfaces") :=
                           withGroups nic groups]> (interfaces w)) w,
                    t))
      /\ (failing w OpInterfacesGet = Some 404%Z
          \/ (failing w OpInterfacesGet = None
              /\ interfaces w !! (ResourceGroup id, PathAt id "networkInterfaces") = None) ->
          exists t,
            run handle (resourceNetworkInterfaceApplicationSecurityGroupAssociationDelete d) w
            = Some ((d, Some (ErrNetworkInterfaceNotFound
                                (PathAt id "networkInterfaces") (ResourceGroup id))),
                    w, t))).
Proof.
  split.
  - intros Hparse Hfree. split.
    + intros [Hdel|[Hdel|[Hdel Hwait]]].
      * destruct (authorization_delete_not_found d w id Hparse Hfree) as [t Ht];
          [now left|]. eauto.
      * destruct (authorization_delete_not_found d w id Hparse Hfree) as [t Ht];
          [now right|]. eauto.
      * exact (authorization_wait_not_found d w id Hparse Hfree Hdel Hwait).
    + intros Hok.
      destruct (authorizations w !! (ResourceGroup id, PathAt id "expressRouteCircuits",
                                     PathAt id "authorizations")) as [existing|] eqn:Hauth.
      * destruct (authorization_delete_present d w id existing Hparse Hfree Hok Hauth)
          as [t1 Ht1].
        destruct (authorization_delete_not_found d
                    (setAuthorizations
                       (delete (ResourceGroup id, PathAt id "expressRouteCircuits",
                                PathAt id "authorizations") (authorizations w)) w)
                    id Hparse) as [t2 Ht2].
        { exact Hfree. }
        { right. split; [apply Hok|]. cbn. apply lookup_delete_eq. }
        eauto.
      * destruct (authorization_delete_not_found d w id Hparse Hfree) as [t Ht].
        { right. split; [apply Hok | exact Hauth]. }
        eauto.
  - intros networkInterfaceId applicationSecurityGroupId Hsplit Hparse Hfree. split.
    + intros nic groups Hnic Hprops Hnin Hok.
      destruct (delete_run d id networkInterfaceId applicationSecurityGroupId
                  w nic groups Hsplit Hparse Hnic Hprops Hok Hfree) as [t Hrun].
      rewrite (filter_absent groups _ Hnin) in Hrun. eauto.
    + intros Hnf.
      rewrite (delete_parent_not_found d id networkInterfaceId applicationSecurityGroupId
                 w Hsplit Hparse Hnf Hfree). eauto.
Qed.

Lemma delete_of_absent_witness :
  (exists w' t,
      run handle (resourceExpressRouteCircuitAuthorizationDelete Examples.authorization)
          Examples.emptyService
      = Some ((Examples.authorization, None), w', t))
  /\ (exists w1 t1 t2,
        run handle (resourceExpressRouteCircuitAuthorizationDelete Examples.authorization)
            Examples.serviceWithAuthorization
        = Some ((Examples.authorization, None), w1, t1)
        /\ run handle (resourceExpressRouteCircuitAuthorizationDelete Examples.authorization)
               w1
           = Some ((Examples.authorization, None), w1, t2))
  /\ (exists t,
        run handle (resourceNetworkInterfaceApplicationSecurityGroupAssociationDelete
                      Examples.association)
            (Examples.serviceWith [Examples.asg2])
        = Some ((Examples.association, None),
                setInterfaces
                  (<[("rg1", "nic1") :=
                       withGroups (Examples.nicWith [Examples.asg2]) [Examples.asg2]]>
                     (interfaces (Examples.serviceWith [Examples.asg2])))
                  (Examples.serviceWith [Examples.asg2]),
                t)).
Proof.
  split; [|split].
  - apply (proj1 (delete_of_absent Examples.authorization Examples.emptyService
                    Examples.auth1ID)).
    + vm_compute. reflexivity.
    + apply not_elem_of_empty.
    + right. left. split; reflexivity.
  - apply (proj1 (delete_of_absent Examples.authorization
                    Examples.serviceWithAuthorization Examples.auth1ID)).
    + vm_compute. reflexivity.
    + apply not_elem_of_empty.
    + reflexivity.
  - apply (proj2 (delete_of_absent Examples.association
                    (Examples.serviceWith [Examples.asg2]) Examples.nic1ID)
             Examples.nic1 Examples.asg1).
    + vm_compute. reflexivity.
    + vm_compute. reflexivity.
    + apply not_elem_of_empty.
    + vm_compute. reflexivity.
    + reflexivity.
    + intros [Heq|Hin]%elem_of_cons; [discriminate | now apply elem_of_nil in Hin].
    + reflexivity.
Defined.

(** Delete of an association whose parent interface is gone: the fetch
    observes NotFound and Delete returns an error. *)
Lemma delete_missing_parent_is_error :
  interfaces Examples.emptyService !! ("rg1", "nic1") = None
  /\ run handle (resourceNetworkInterfaceApplicationSecurityGroupAssociationDelete
                  Examples.association) Examples.emptyService
     = Some ((Examples.association, Some (ErrNetworkInterfaceNotFound "nic1" "rg1")),
             Examples.emptyService,
             [existT _ (LockByName "nic1" networkInterfaceResourceName);
              existT _ (InterfacesGet "rg1" "nic1" "");
              existT _ (UnlockByName "nic1" networkInterfaceResourceName)]).
Proof. split; vm_compute; reflexivity. Qed.
End NetworkSpec.

(** ** Package [compute] *)

Module ComputeSpec.
Import GoStrings Provider PluginSdk Compute ProgFacts.

Section Poller.
Variables (d : ResourceData) (id : DedicatedHostId).

Let conf := deleteStateConf d id.
Let get : @Call Event :=
  existT _ (HostsGet (ResourceGroup id) (HostGroupName id) (HostName id) "").

(** One refresh reads the host once and classifies the answer. *)
Lemma refresh_run (w : World) :
  run handle (dedicatedHostDeletedRefreshFunc id) w
  = Some (if bool_decide (hostStatusAt w (reads w) = 200%Z) then
            (Some (ValHost (theHost (ResourceGroup id) (HostGroupName id) (HostName id))),
             "Exists", None)
          else if bool_decide (hostStatusAt w (reads w) = 404%Z) then
            (Some (ValString "NotFound"), "NotFound", None)
          else
            (None, "", Some (ErrPolling {| sdkStatus := hostStatusAt w (reads w) |})),
          afterRead w, [get]).
Proof.
  unfold dedicatedHostDeletedRefreshFunc.
  rewrite run_bind, run_trigger. cbn [handle].
  destruct (bool_decide (hostStatusAt w (reads w) = 200%Z)) eqn:H200; cbn.
  - reflexivity.
  - unfold ResponseWasNotFound.
    destruct (decide (hostStatusAt w (reads w) = 404%Z)) as [H404|H404].
    + rewrite H404. reflexivity.
    + rewrite !bool_decide_false by congruence. reflexivity.
Qed.

(** A Pending observation: the wait goes on with the counter at zero. *)
Lemma wait_pending (w : World) (budget targetOccurence : nat) :
  hostStatusAt w (reads w) = 200%Z ->
  run handle (waitForState conf (S budget) targetOccurence) w
  = match run handle (waitForState conf budget 0) (afterRead w) with
    | Some (r, w', t) => Some (r, w', get :: t)
    | None => None
    end.
Proof.
  intros H200. cbn [waitForState]. rewrite run_bind.
  change (Refresh conf) with (dedicatedHostDeletedRefreshFunc id).
  rewrite refresh_run, H200.
  rewrite (bool_decide_true (200 = 200)%Z) by reflexivity. cbn -[waitForState].
  destruct (run handle (waitForState conf budget 0) (afterRead w)) as [[[r w'] t]|];
    reflexivity.
Qed.

(** A Target observation short of the required number: the wait goes on
    with the counter one up. *)
Lemma wait_target (w : World) (budget targetOccurence : nat) :
  hostStatusAt w (reads w) = 404%Z ->
  (S targetOccurence < 20)%nat ->
  run handle (waitForState conf (S budget) targetOccurence) w
  = match run handle (waitForState conf budget (S targetOccurence)) (afterRead w) with
    | Some (r, w', t) => Some (r, w', get :: t)
    | None => None
    end.
Proof.
  intros H404 Hlt. cbn [waitForState]. rewrite run_bind.
  change (Refresh conf) with (dedicatedHostDeletedRefreshFunc id).
  rewrite refresh_run, H404.
  rewrite (bool_decide_false (404 = 200)%Z) by discriminate.
  rewrite (bool_decide_true (404 = 404)%Z) by reflexivity.
  cbn -[waitForState Nat.leb].
  destruct (Nat.leb_spec 20 (S targetOccurence)) as [Hle|_]; [lia|].
  destruct (run handle (waitForState conf budget (S targetOccurence)) (afterRead w))
    as [[[r w'] t]|]; reflexivity.
Qed.

(** The Target observation that completes the required number. *)
Lemma wait_done (w : World) (budget targetOccurence : nat) :
  hostStatusAt w (reads w) = 404%Z ->
  (20 <= S targetOccurence)%nat ->
  run handle (waitForState conf (S budget) targetOccurence) w
  = Some ((Some (ValString "NotFound"), None), afterRead w, [get]).
Proof.
  intros H404 Hle. cbn [waitForState]. rewrite run_bind.
  change (Refresh conf) with (dedicatedHostDeletedRefreshFunc id).
  rewrite refresh_run, H404.
  rewrite (bool_decide_false (404 = 200)%Z) by discriminate.
  rewrite (bool_decide_true (404 = 404)%Z) by reflexivity.
  cbn -[waitForState Nat.leb].
  destruct (Nat.leb_spec 20 (S targetOccurence)) as [_|Hlt]; [|lia].
  reflexivity.
Qed.

(** Any other answer ends the wait with the error of the refresh. *)
Lemma wait_failed (w : World) (budget targetOccurence : nat) :
  hostStatusAt w (reads w) <> 200%Z ->
  hostStatusAt w (reads w) <> 404%Z ->
  run handle (waitForState conf (S budget) targetOccurence) w
  = Some ((None, Some (RefreshFailed
                         (ErrPolling {| sdkStatus := hostStatusAt w (reads w) |}))),
          afterRead w, [get]).
Proof.
  intros H200 H404. cbn [waitForState]. rewrite run_bind.
  change (Refresh conf) with (dedicatedHostDeletedRefreshFunc id).
  rewrite refresh_run. rewrite !bool_decide_false by assumption. reflexivity.
Qed.

(** A wait that ends well read the host at most [budget] times, and
    either every read was a Target observation and they completed the
    required number, or the last twenty reads were, right after a Pending
    one. *)
Lemma wait_success (budget : nat) :
  forall (targetOccurence : nat) (w w' : World) res t,
    (targetOccurence < 20)%nat ->
    run handle (waitForState conf budget targetOccurence) w = Some ((res, None), w', t) ->
    (reads w' <= reads w + budget)%nat
    /\ ((reads w' = reads w + (20 - targetOccurence)
         /\ forall i, reads w <= i < reads w' -> hostStatusAt w i = 404%Z)%nat
        \/ (reads w + 21 <= reads w'
            /\ hostStatusAt w (reads w' - 21) = 200%Z
            /\ forall i, reads w' - 20 <= i < reads w' -> hostStatusAt w i = 404%Z)%nat).
Proof.
  induction budget as [|budget IH]; intros c w w' res t Hc Hrun.
  - discriminate Hrun.
  - destruct (decide (hostStatusAt w (reads w) = 200%Z)) as [H200|H200].
    { rewrite (wait_pending w budget c H200) in Hrun.
      destruct (run handle (waitForState conf budget 0) (afterRead w))
        as [[[r w1] t1]|] eqn:Hrec; [|discriminate].
      injection Hrun as -> -> _.
      destruct (IH 0%nat (afterRead w) w' res t1 ltac:(lia) Hrec) as [Hle Hcases].
      cbn [reads afterRead hostStatusAt] in *. split; [lia|]. right.
      destruct Hcases as [[Heq Hall]|(Hge & Hreset & Hall)].
      - split; [lia|]. split.
        + replace (reads w' - 21)%nat with (reads w) by lia. exact H200.
        + intros i Hi. apply Hall. lia.
      - split; [lia|]. split; [exact Hreset|exact Hall]. }
    destruct (decide (hostStatusAt w (reads w) = 404%Z)) as [H404|H404].
    { destruct (decide (S c < 20)%nat) as [Hlt|Hge].
      - rewrite (wait_target w budget c H404 Hlt) in Hrun.
        destruct (run handle (waitForState conf budget (S c)) (afterRead w))
          as [[[r w1] t1]|] eqn:Hrec; [|discriminate].
        injection Hrun as -> -> _.
        destruct (IH (S c) (afterRead w) w' res t1 Hlt Hrec) as [Hle Hcases].
        cbn [reads afterRead hostStatusAt] in *. split; [lia|].
        destruct Hcases as [[Heq Hall]|(Hge & Hreset & Hall)].
        + left. split; [lia|]. intros i Hi.
          destruct (decide (i = reads w)) as [->|Hne]; [exact H404|].
          apply Hall. lia.
        + right. split; [lia|]. split; [exact Hreset|exact Hall].
      - rewrite (wait_done w budget c H404 ltac:(lia)) in Hrun.
        injection Hrun as _ <- _. cbn [reads afterRead]. split; [lia|].
        left. split; [lia|]. intros i Hi.
        replace i with (reads w) by lia. exact H404. }
    rewrite (wait_failed w budget c H200 H404) in Hrun. discriminate.
Qed.

(** A wait always ends, after at most [budget] reads. *)
Lemma wait_total (budget : nat) :
  forall (targetOccurence : nat) (w : World),
    exists r w' t,
      run handle (waitForState conf budget targetOccurence) w = Some (r, w', t)
      /\ (reads w' <= reads w + budget)%nat.
Proof.
  induction budget as [|budget IH]; intros c w.
  - eexists _, _, _. split; [reflexivity|]. lia.
  - destruct (decide (hostStatusAt w (reads w) = 200%Z)) as [H200|H200].
    { rewrite (wait_pending w budget c H200).
      destruct (IH 0%nat (afterRead w)) as (r & w' & t & -> & Hle).
      eexists _, _, _. split; [reflexivity|]. cbn [reads afterRead] in Hle. lia. }
    destruct (decide (hostStatusAt w (reads w) = 404%Z)) as [H404|H404].
    { destruct (decide (S c < 20)%nat) as [Hlt|Hge].
      - rewrite (wait_target w budget c H404 Hlt).
        destruct (IH (S c) (afterRead w)) as (r & w' & t & -> & Hle).
        eexists _, _, _. split; [reflexivity|]. cbn [reads afterRead] in Hle. lia.
      - rewrite (wait_done w budget c H404 ltac:(lia)).
        eexists _, _, _. split; [reflexivity|]. cbn [reads afterRead]. lia. }
    rewrite (wait_failed w budget c H200 H404).
    eexists _, _, _. split; [reflexivity|]. cbn [reads afterRead]. lia.
Qed.
End Poller.

(** Delete, once the delete call and its wait are through, is the wait for
    the state: it answers what the wait answers, from the same service. *)
Lemma delete_reaches_wait (d : ResourceData) (w : World) :
  (exists e t, e <> None
      /\ run handle (resourceDedicatedHostDelete d) w = Some ((d, e), w, t))
  \/ (exists id,
        forall r w' t,
          run handle (waitForState (deleteStateConf d id) (TimeoutDelete d) 0) w
          = Some (r, w', t) ->
          exists t',
            run handle (resourceDedicatedHostDelete d) w
            = Some ((d, match r.2 with
                        | Some err => Some (ErrWaitingToDisappear id err)
                        | None => None
                        end), w', t')).
Proof.
  unfold resourceDedicatedHostDelete.
  destruct (DedicatedHostID (Id d)) as [id|].
  2:{ left. eexists _, _. split; [|reflexivity]. discriminate. }
  rewrite run_bind, run_trigger. cbn [handle].
  destruct (deleteFailing w) as [status|].
  { left. eexists _, _. split; [|reflexivity]. discriminate. }
  cbn -[deleteStateConf WaitForStateContext].
  destruct (waitFailing w) as [status|].
  - cbn -[deleteStateConf WaitForStateContext].
    destruct (ResponseWasNotFound (Some status)).
    + right. exists id. intros r w' t Hwait.
      cbn -[deleteStateConf WaitForStateContext].
      rewrite run_bind. unfold WaitForStateContext.
      change (Timeout (deleteStateConf d id)) with (TimeoutDelete d).
      rewrite Hwait. destruct r as [res [err|]]; cbn; eexists; reflexivity.
    + left. eexists _, _. split; [|reflexivity]. discriminate.
  - right. exists id. intros r w' t Hwait.
    cbn -[deleteStateConf WaitForStateContext].
    rewrite run_bind. unfold WaitForStateContext.
    change (Timeout (deleteStateConf d id)) with (TimeoutDelete d).
    rewrite Hwait. destruct r as [res [err|]]; cbn; eexists; reflexivity.
Qed.

(** C9: Delete's wait for the host to disappear.  Delete returns nil only
    after twenty consecutive NotFound reads of the host, the last twenty
    reads it made; a read that finds the host puts the count of consecutive
    NotFound reads back to zero, whatever it was; and the wait always ends,
    after no more reads than the delete timeout leaves room for. *)
Theorem delete_confirmed_by_twenty_absences (d : ResourceData) (w : World) :
  (forall d' w' t,
      run handle (resourceDedicatedHostDelete d) w = Some ((d', None), w', t) ->
      (reads w + 20 <= reads w')%nat
      /\ (reads w' <= reads w + TimeoutDelete d)%nat
      /\ forall i, (reads w' - 20 <= i < reads w')%nat -> hostStatusAt w i = 404%Z)
  /\ (forall id budget targetOccurence,
        hostStatusAt w (reads w) = 200%Z ->
        run handle (waitForState (deleteStateConf d id) (S budget) targetOccurence) w
        = match run handle (waitForState (deleteStateConf d id) budget 0) (afterRead w) with
          | Some (r, w', t) =>
              Some (r, w',
                    existT _ (HostsGet (ResourceGroup id) (HostGroupName id)
                                (HostName id) "") :: t)
          | None => None
          end)
  /\ (exists r w' t,
        run handle (resourceDedicatedHostDelete d) w = Some (r, w', t)
        /\ (reads w' <= reads w + TimeoutDelete d)%nat).
Proof.
  split; [|split].
  - intros d' w' t Hrun.
    destruct (delete_reaches_wait d w) as [(e & t0 & Hne & Hfail)|[id Hwait]].
    { rewrite Hfail in Hrun. congruence. }
    destruct (wait_total d id (TimeoutDelete d) 0%nat w) as (r & w1 & t1 & Hw & _).
    destruct (Hwait r w1 t1 Hw) as [t' Hdel]. rewrite Hdel in Hrun.
    destruct r as [res [err|]]; [discriminate|]. cbn in Hrun.
    injection Hrun as _ <- _.
    destruct (wait_success d id (TimeoutDelete d) 0%nat w w1 res t1 ltac:(lia) Hw)
      as [Hle [[Heq Hall]|(Hge & _ & Hall)]].
    + split; [lia|]. split; [lia|]. intros i Hi. apply Hall. lia.
    + split; [lia|]. split; [lia|]. exact Hall.
  - intros id budget c H200. exact (wait_pending d id w budget c H200).
  - destruct (delete_reaches_wait d w) as [(e & t0 & Hne & Hfail)|[id Hwait]].
    { eexists _, _, _. split; [exact Hfail|]. lia. }
    destruct (wait_total d id (TimeoutDelete d) 0%nat w) as (r & w1 & t1 & Hw & Hle).
    destruct (Hwait r w1 t1 Hw) as [t' Hdel].
    eexists _, _, _. split; [exact Hdel|]. exact Hle.
Qed.

Lemma delete_confirmed_by_twenty_absences_witness :
  exists w' t,
    run handle (resourceDedicatedHostDelete Examples.dedicatedHost)
        Examples.flappingService
    = Some ((Examples.dedicatedHost, None), w', t)
    /\ (reads Examples.flappingService + 20 <= reads w')%nat
    /\ (reads w' <= reads Examples.flappingService + 180)%nat
    /\ hostStatusAt Examples.flappingService (reads w' - 20) = 404%Z.
Proof.
  eexists _, _. split; [vm_compute; reflexivity|].
  edestruct (proj1 (delete_confirmed_by_twenty_absences Examples.dedicatedHost
                      Examples.flappingService)) as (Hmin & Hmax & Hall).
  - vm_compute. reflexivity.
  - split; [exact Hmin|]. split; [exact Hmax|]. apply Hall. cbn. lia.
Defined.

(** The scenario: 200, 200, five times 404, 200, then 404.  The nineteen
    NotFound reads after the last 200 are not enough although twenty-four
    were seen; with one more, Delete ends well after twenty-eight reads. *)
Example flapping_host :
  (exists w' t,
      run handle (resourceDedicatedHostDelete Examples.dedicatedHostShortTimeout)
          Examples.flappingService
      = Some ((Examples.dedicatedHostShortTimeout,
               Some (ErrWaitingToDisappear Examples.host1ID TimedOut)), w', t)
      /\ reads w' = 27%nat)
  /\ (exists w' t,
        run handle (resourceDedicatedHostDelete Examples.dedicatedHost)
            Examples.flappingService
        = Some ((Examples.dedicatedHost, None), w', t)
        /\ reads w' = 28%nat).
Proof.
  split; eexists _, _; (split; [vm_compute; reflexivity | reflexivity]).
Qed.
End ComputeSpec.

(** ** Package [automation] *)

Module AutomationSpec.
Import GoStrings Provider Automation ProgFacts.

Section WithUUID.
Context {UUID : Type} `{EqDecision UUID}.
Variable FromString : string -> option UUID.
Variable UUIDString : UUID -> string.
Variable Nil : UUID.

Let h := handle FromString UUIDString Nil.


Section Loop.
Variables resourceGroup accountName scheduleName runbookName : string.


End Loop.








End WithUUID.


(** A listed job schedule of the requested schedule and runbook whose id is
    empty: Create fails on it. *)
Example create_fails_on_empty_id :
  run (handle Examples.canonicalUUID (fun id => id) Examples.nilUUID)
      (resourceAutomationJobScheduleCreate Examples.canonicalUUID Examples.nilUUID
         Examples.newJobSchedule)
      (Examples.accountWith [Examples.jobScheduleWith (Some "")])
  = Some ((Examples.newJobSchedule, Some (ErrJobScheduleIdNilOrEmpty "acc1")),
          Examples.accountWith [Examples.jobScheduleWith (Some "")],
          [existT _ NewV4;
           existT _ (JobScheduleGet "rg1" "acc1" Examples.uuid2);
           existT _ (JobScheduleListByAutomationAccountComplete "rg1" "acc1" "")]).
Proof. vm_compute. reflexivity. Qed.
End AutomationSpec.

(** ** Handlers of package [network] running concurrently *)

Module NetworkLocksSpec.
Import GoStrings Provider Network NetworkLocks ProgFacts.

(** *** The handlers keep to the locking discipline *)

Ltac lock_free :=
  repeat (cbn;
          first [ apply LockFree_ret
                | apply LockFree_call; [reflexivity | intros ?]
                | case_match ]).

Lemma read_association_lock_free (d : ResourceData) :
  LockFree (resourceNetworkInterfaceApplicationSecurityGroupAssociationRead d).
Proof. unfold resourceNetworkInterfaceApplicationSecurityGroupAssociationRead. lock_free. Qed.

Lemma read_authorization_lock_free (d : ResourceData) :
  LockFree (resourceExpressRouteCircuitAuthorizationRead d).
Proof. unfold resourceExpressRouteCircuitAuthorizationRead. lock_free. Qed.

Lemma create_association_lock_free d networkInterfaceId applicationSecurityGroupId
    name resourceGroup :
  LockFree (associationCreateLocked d networkInterfaceId applicationSecurityGroupId
              name resourceGroup).
Proof.
  unfold associationCreateLocked.
  repeat (cbn -[resourceNetworkInterfaceApplicationSecurityGroupAssociationRead];
          first [ apply read_association_lock_free
                | apply LockFree_ret
                | apply LockFree_call; [reflexivity | intros ?]
                | case_match ]).
Qed.

Lemma delete_association_lock_free d applicationSecurityGroupId name resourceGroup :
  LockFree (associationDeleteLocked d applicationSecurityGroupId name resourceGroup).
Proof. unfold associationDeleteLocked. lock_free. Qed.

Lemma create_authorization_lock_free d name resourceGroup circuitName :
  LockFree (authorizationCreateLocked d name resourceGroup circuitName).
Proof.
  unfold authorizationCreateLocked, authorizationImportCheck.
  repeat (cbn -[resourceExpressRouteCircuitAuthorizationRead];
          first [ apply read_authorization_lock_free
                | apply LockFree_ret
                | apply LockFree_call; [reflexivity | intros ?]
                | case_match ]).
Qed.

Lemma delete_authorization_lock_free d name resourceGroup circuitName :
  LockFree (authorizationDeleteLocked d name resourceGroup circuitName).
Proof. unfold authorizationDeleteLocked. lock_free. Qed.

(** [defer locks.UnlockByName(...)] after a body that touches no lock: the
    section releases the lock on every path, last. *)
Lemma deferred_unlock (key name resourceType : string) {A} (body : Prog Event A) :
  lockKey name resourceType = key ->
  LockFree body ->
  InSection key (result ← body; trigger (UnlockByName name resourceType);; Ret result).
Proof.
  intros Hkey. induction 1 as [a|X e k He _ IH]; cbn.
  - now apply InSection_unlock.
  - apply InSection_call; [exact He|]. exact IH.
Qed.

Lemma locked_outside (key name resourceType : string) {A} (body : Prog Event A) :
  lockKey name resourceType = key ->
  LockFree body ->
  Outside key (trigger (LockByName name resourceType);;
               result ← body;
               trigger (UnlockByName name resourceType);;
               Ret result).
Proof.
  intros Hkey Hfree. cbn. apply Outside_lock; [exact Hkey|].
  intros _. now apply deferred_unlock.
Qed.

(** Every operation is outside its section to begin with: it returns
    before it gets to the lock, or acquires the lock and from then to its
    return, on every path, is inside. *)
Lemma handler_outside (m : Mutation) (key : string) :
  lockOf m = Some key \/ lockOf m = None -> Outside key (handler m).
Proof.
  destruct m as [d|d|d|d]; cbn [lockOf handler].
  - unfold resourceNetworkInterfaceApplicationSecurityGroupAssociationCreate.
    destruct (ParseAzureResourceID _) as [id|]; [|intros _; apply Outside_ret].
    intros [[= Hkey]|[=]]. apply locked_outside; [exact Hkey|].
    apply create_association_lock_free.
  - unfold resourceNetworkInterfaceApplicationSecurityGroupAssociationDelete.
    destruct (negb _); [intros _; apply Outside_ret|].
    destruct (ParseAzureResourceID _) as [id|]; [|intros _; apply Outside_ret].
    intros [[= Hkey]|[=]]. apply locked_outside; [exact Hkey|].
    apply delete_association_lock_free.
  - unfold resourceExpressRouteCircuitAuthorizationCreate.
    intros [[= Hkey]|[=]]. apply locked_outside; [exact Hkey|].
    apply create_authorization_lock_free.
  - unfold resourceExpressRouteCircuitAuthorizationDelete.
    destruct (ParseAzureResourceID _) as [id|]; [|intros _; apply Outside_ret].
    intros [[= Hkey]|[=]]. apply locked_outside; [exact Hkey|].
    apply delete_authorization_lock_free.
Qed.

(** *** The lock serialises the sections *)

Lemma InSection_inv (key : string) {A} (p : Prog Event A) :
  InSection key p ->
  match p with
  | Ret _ => False
  | Vis e k =>
      (isLockEvent e = false /\ forall x, InSection key (k x))
      \/ match e in Event X return (X -> Prog Event A) -> Prop with
         | UnlockByName name resourceType =>
             fun k => lockKey name resourceType = key /\ exists a, forall x, k x = Ret a
         | _ => fun _ => False
         end k
  end.
Proof. destruct 1; [right; cbn; eauto | left; auto]. Qed.

Lemma Outside_inv (key : string) {A} (p : Prog Event A) :
  Outside key p ->
  match p with
  | Ret _ => True
  | Vis e k =>
      match e in Event X return (X -> Prog Event A) -> Prop with
      | LockByName name resourceType =>
          fun k => lockKey name resourceType = key /\ forall x, InSection key (k x)
      | _ => fun _ => False
      end k
  end.
Proof. destruct 1; cbn; auto. Qed.

(** Calls to the service leave the registry alone. *)
Lemma call_preserves_held {X} (e : Event X) (w w' : World) (x : X) :
  isLockEvent e = false ->
  handle X e w = Some (x, w') ->
  held w' = held w.
Proof.
  destruct e; cbn; try discriminate; intros _ Hstep;
    repeat case_match; simplify_eq; reflexivity.
Qed.

Lemma pool_invariant (key : string) (w0 : World) (ts0 : list (Prog Event Result)) :
  Forall (Outside key) ts0 ->
  key ∉ held w0 ->
  forall c0 t c,
    pool_steps handle c0 t c ->
    c0 = (w0, ts0) ->
    exists holder, Serial key t holder /\ standing key holder c.1 c.2.
Proof.
  intros Hout Hfree c0 t c Hsteps.
  induction Hsteps as [c|c t c' l c'' Hsteps IH Hstep]; intros ->.
  - exists None. split; [constructor|]. split; [|tauto].
    intros i p Hp. rewrite decide_False by discriminate.
    exact (proj1 (Forall_lookup _ _) Hout i p Hp).
  - destruct (IH eq_refl) as (holder & Hserial & Hthreads & Hheld). clear IH.
    destruct Hstep as [w ts i X e k x w' Hi Hhandle]. cbn [fst snd] in *.
    pose proof (Hthreads i _ Hi) as Hp.
    destruct (decide (holder = Some i)) as [->|Hother].
    + apply InSection_inv in Hp as [[Hcall Hk]|Hunlock].
      * exists (Some i). split; [now apply Serial_call|]. split.
        -- intros j p Hj. destruct (decide (j = i)) as [->|Hne].
           ++ rewrite list_lookup_insert_eq in Hj by (eapply lookup_lt_Some; eauto).
              injection Hj as <-. rewrite decide_True by reflexivity. apply Hk.
           ++ rewrite list_lookup_insert_ne in Hj by congruence.
              exact (Hthreads j p Hj).
        -- rewrite (call_preserves_held e w w' x Hcall Hhandle). exact Hheld.
      * destruct e; try contradiction. destruct Hunlock as [Hkey [a Hk]].
        cbn in Hhandle. injection Hhandle as <- <-.
        exists None. split; [now apply Serial_unlock|]. split.
        -- intros j p Hj. rewrite decide_False by discriminate.
           destruct (decide (j = i)) as [->|Hne].
           ++ rewrite list_lookup_insert_eq in Hj by (eapply lookup_lt_Some; eauto).
              injection Hj as <-. rewrite Hk. constructor.
           ++ rewrite list_lookup_insert_ne in Hj by congruence.
              specialize (Hthreads j p Hj).
              rewrite decide_False in Hthreads by congruence. exact Hthreads.
        -- cbn. rewrite Hkey. split; [intros _ | reflexivity].
           intros [_ Hx]%elem_of_difference. apply Hx. now apply elem_of_singleton.
    + apply Outside_inv in Hp. destruct e; try contradiction.
      destruct Hp as [Hkey Hk]. cbn in Hhandle. rewrite Hkey in Hhandle.
      case_bool_decide as Hin; [discriminate|]. injection Hhandle as <- <-.
      assert (holder = None) as -> by (now apply Hheld).
      exists (Some i). split; [now apply Serial_lock|]. split.
      * intros j p Hj. destruct (decide (j = i)) as [->|Hne].
        -- rewrite list_lookup_insert_eq in Hj by (eapply lookup_lt_Some; eauto).
           injection Hj as <-. rewrite decide_True by reflexivity. apply Hk.
        -- rewrite list_lookup_insert_ne in Hj by congruence.
           rewrite decide_False by congruence.
           specialize (Hthreads j p Hj).
           rewrite decide_False in Hthreads by discriminate. exact Hthreads.
      * cbn. split; [discriminate|]. intros Hnot. exfalso. apply Hnot.
        apply elem_of_union. left. now apply elem_of_singleton.
Qed.

Lemma snoc_split {T} (t t1 t2 : list T) (l x : T) :
  t ++ [l] = t1 ++ x :: t2 ->
  (t2 = [] /\ t = t1 /\ l = x)
  \/ exists t2', t2 = t2' ++ [l] /\ t = t1 ++ x :: t2'.
Proof.
  destruct t2 as [|y t2' _] using rev_ind; intros Heq.
  - left. apply app_inj_tail in Heq as [-> ->]. auto.
  - right. exists t2'.
    change (x :: t2' ++ [y]) with ((x :: t2') ++ [y]) in Heq.
    rewrite app_assoc in Heq. apply app_inj_tail in Heq as [-> ->]. auto.
Qed.

(** In a serial trace, from the point where a program acquires the lock
    and as long as it has not released it, it is the holder and every event
    is its own. *)
Lemma serial_section (key : string) (t : list (nat * @Call Event)) (holder : option nat) :
  Serial key t holder ->
  forall t1 i c t2,
    t = t1 ++ (i, c) :: t2 ->
    isAcquire c = true ->
    Forall (fun l => ~ (l.1 = i /\ isRelease l.2 = true)) t2 ->
    holder = Some i /\ Forall (fun l => l.1 = i) t2.
Proof.
  induction 1 as [|t j name resourceType Hkey Hserial IH
                  |t j name resourceType Hkey Hserial IH
                  |t j X e He Hserial IH]; intros t1 i c t2 Heq Hacq Hnorel.
  - destruct t1; discriminate.
  - apply snoc_split in Heq as [(-> & -> & [= -> <-])|(t2' & -> & ->)].
    + split; [reflexivity|constructor].
    + apply Forall_app in Hnorel as [Hnorel _].
      destruct (IH _ _ _ _ eq_refl Hacq Hnorel) as [[=] _].
  - apply snoc_split in Heq as [(-> & -> & [= -> <-])|(t2' & -> & ->)].
    + discriminate.
    + apply Forall_app in Hnorel as [Hnorel Hlast].
      destruct (IH _ _ _ _ eq_refl Hacq Hnorel) as [[= ->] _].
      apply Forall_inv in Hlast. exfalso. apply Hlast. split; reflexivity.
  - apply snoc_split in Heq as [(-> & -> & [= -> <-])|(t2' & -> & ->)].
    + destruct e; discriminate.
    + apply Forall_app in Hnorel as [Hnorel _].
      destruct (IH _ _ _ _ eq_refl Hacq Hnorel) as [[= ->] Hall].
      split; [reflexivity|]. apply Forall_app. split; [exact Hall|].
      constructor; [reflexivity|constructor].
Qed.

(** C8: operations that acquire the same named lock, run concurrently from
    a free lock.  Whatever the interleaving, their sections do not
    interleave: the trace is serial, so the lock is acquired only when
    nobody holds it, and from the point where one operation acquires it
    until that operation releases it every event of the trace, every call
    to the service among them, is that operation's.  An operation that has
    returned, with or without an error, does not hold the lock, and when no
    operation holds it the registry does not have the key. *)
Theorem sections_never_interleave (ms : list Mutation) (key : string)
    (w0 w : World) (t : list (nat * @Call Event)) (ts : list (Prog Event Result)) :
  Forall (fun m => lockOf m = Some key \/ lockOf m = None) ms ->
  key ∉ held w0 ->
  pool_steps handle (w0, handler <$> ms) t (w, ts) ->
  exists holder,
    Serial key t holder
    /\ (forall t1 i c t2,
          t = t1 ++ (i, c) :: t2 ->
          isAcquire c = true ->
          Forall (fun l => ~ (l.1 = i /\ isRelease l.2 = true)) t2 ->
          holder = Some i /\ Forall (fun l => l.1 = i) t2)
    /\ (forall i result, ts !! i = Some (Ret result) -> holder <> Some i)
    /\ (holder = None -> key ∉ held w).
Proof.
  intros Hlocks Hfree Hsteps.
  destruct (pool_invariant key w0 (handler <$> ms)) with (3 := Hsteps)
    as (holder & Hserial & Hthreads & Hheld).
  - apply Forall_fmap. eapply Forall_impl; [exact Hlocks|].
    intros m Hm. now apply handler_outside.
  - exact Hfree.
  - reflexivity.
  - exists holder. split; [exact Hserial|]. split; [|split].
    + exact (serial_section key t holder Hserial).
    + intros i result Hi ->. specialize (Hthreads i _ Hi).
      cbn in Hthreads. rewrite decide_True in Hthreads by reflexivity.
      now apply InSection_inv in Hthreads.
    + apply Hheld.
Qed.

Lemma sections_never_interleave_witness :
  exists w ts t,
    pool_steps handle
      (Examples.serviceWith [Examples.asg2],
       handler <$> [CreateAssociation Examples.newAssociation;
                    DeleteAssociation Examples.association])
      t (w, ts)
    /\ t = [(1%nat, existT _ (LockByName "nic1" networkInterfaceResourceName));
            (1%nat, existT _ (InterfacesGet "rg1" "nic1" ""));
            (1%nat, existT _ (InterfacesCreateOrUpdate "rg1" "nic1"
                                (withGroups (Examples.nicWith [Examples.asg2])
                                   [Examples.asg2])))]
    /\ Serial (lockKey "nic1" networkInterfaceResourceName) t (Some 1%nat).
Proof.
  assert (Hrun : exists w ts t,
             pool_steps handle
               (Examples.serviceWith [Examples.asg2],
                handler <$> [CreateAssociation Examples.newAssociation;
                             DeleteAssociation Examples.association])
               t (w, ts)
             /\ t = [(1%nat, existT _ (LockByName "nic1" networkInterfaceResourceName));
                     (1%nat, existT _ (InterfacesGet "rg1" "nic1" ""));
                     (1%nat, existT _ (InterfacesCreateOrUpdate "rg1" "nic1"
                                         (withGroups (Examples.nicWith [Examples.asg2])
                                            [Examples.asg2])))]).
  { eexists _, _, _. split.
    - eapply pool_steps_snoc; [eapply pool_steps_snoc; [eapply pool_steps_snoc;
        [apply pool_steps_refl|]|]|].
      + eapply (pool_step_at handle _ _ 1%nat); [vm_compute; reflexivity|reflexivity].
      + eapply (pool_step_at handle _ _ 1%nat); [reflexivity|reflexivity].
      + eapply (pool_step_at handle _ _ 1%nat); [reflexivity|reflexivity].
    - reflexivity. }
  destruct Hrun as (w & ts & t & Hsteps & Ht).
  exists w, ts, t. split; [exact Hsteps|]. split; [exact Ht|].
  destruct (sections_never_interleave
              [CreateAssociation Examples.newAssociation;
               DeleteAssociation Examples.association]
              (lockKey "nic1" networkInterfaceResourceName)
              (Examples.serviceWith [Examples.asg2]) w t ts)
    as (holder & Hserial & Hsection & _ & _).
  - repeat constructor; left; vm_compute; reflexivity.
  - apply not_elem_of_empty.
  - exact Hsteps.
  - destruct (Hsection [] 1%nat _ _ Ht eq_refl) as [-> _]; [|exact Hserial].
    repeat constructor; intros [_ Hrelease]; discriminate Hrelease.
Defined.
End NetworkLocksSpec.

(** ** Package [network]: reading, and how the handlers compose *)

Module NetworkMoreSpec.
Import GoStrings GoStringsFacts Provider Network ProgFacts NetworkSpec.

#[local] Arguments SliceContainsValue : simpl never.
#[local] Arguments resourceNetworkInterfaceApplicationSecurityGroupAssociationRead : simpl never.

(** *** Reading an association *)

(** X1: Read of an association takes no lock and writes nothing: it runs to
    its end whoever holds a lock, leaves the service and the registry as
    they are, and calls the service at most once, to fetch the interface. *)
Theorem read_association_only_fetches (d : ResourceData) (w : World) :
  exists result t,
    run handle (resourceNetworkInterfaceApplicationSecurityGroupAssociationRead d) w
    = Some (result, w, t)
    /\ (t = [] \/ exists resourceGroup name,
                   t = [existT _ (InterfacesGet resourceGroup name "")]).
Proof.
  unfold resourceNetworkInterfaceApplicationSecurityGroupAssociationRead.
  destruct (negb _); [eexists _, _; split; [reflexivity|now left]|].
  destruct (ParseAzureResourceID _) as [id|];
    [|eexists _, _; split; [reflexivity|now left]].
  rewrite run_bind, run_trigger. cbn [handle].
  destruct (failing w OpInterfacesGet) as [status|].
  - cbn. destruct (ResponseWasNotFound _); cbn; eexists _, _; split;
      try reflexivity; right; eauto.
  - destruct (interfaces w !! _) as [nic|]; cbn.
    + destruct (InterfacePropertiesFormat nic) as [props|]; cbn.
      * destruct (negb _); cbn; eexists _, _; split; try reflexivity; right; eauto.
      * eexists _, _; split; [reflexivity|]. right; eauto.
    + destruct (ResponseWasNotFound _); cbn; eexists _, _; split;
        try reflexivity; right; eauto.
Qed.

Section AssociationRead.
Variables (d : ResourceData) (id : ResourceID).
Variables (networkInterfaceId applicationSecurityGroupId : string).
Let name := PathAt id "networkInterfaces".
Let resourceGroup := ResourceGroup id.

(** X2: Read of an association whose parent interface is there keeps the
    identifier exactly when the application security group id is in the
    interface's list, and then sets the two id fields; when it is not in
    the list (or the interface has no ip configurations) Read clears the
    identifier.  Either way it returns nil. *)
Theorem read_association_reflects_membership (w : World) (nic : Interface)
    (props : InterfaceProperties) :
  Split (Id d) pipe = [networkInterfaceId; applicationSecurityGroupId] ->
  ParseAzureResourceID networkInterfaceId = Some id ->
  failing w OpInterfacesGet = None ->
  interfaces w !! (resourceGroup, name) = Some nic ->
  InterfacePropertiesFormat nic = Some props ->
  run handle (resourceNetworkInterfaceApplicationSecurityGroupAssociationRead d) w
  = Some ((if bool_decide (applicationSecurityGroupId
                           ∈ applicationSecurityGroupIDs (parseFieldsFromNetworkInterface props))
           then SetField "network_interface_id" (default "" (ID nic))
                  (SetField "application_security_group_id" applicationSecurityGroupId d)
           else SetId "" d,
           None), w,
          [existT _ (InterfacesGet resourceGroup name "")]).
Proof.
  intros Hsplit Hparse Hget Hnic Hprops.
  unfold resourceNetworkInterfaceApplicationSecurityGroupAssociationRead.
  rewrite Hsplit. cbn [length Nat.eqb negb nth]. rewrite Hparse.
  fold name resourceGroup.
  rewrite run_bind, run_trigger. cbn [handle].
  rewrite Hget, Hnic. cbn. rewrite Hprops. cbn.
  rewrite exists_loop_elem_of. cbn.
  destruct (bool_decide _); reflexivity.
Qed.

(** X3: Read of an association whose parent interface is gone (the fetch
    observes NotFound) clears the identifier and returns nil; a fetch that
    fails in another way is an error and leaves the local state as it
    was. *)
Theorem read_association_parent_gone (w : World) :
  Split (Id d) pipe = [networkInterfaceId; applicationSecurityGroupId] ->
  ParseAzureResourceID networkInterfaceId = Some id ->
  (failing w OpInterfacesGet = Some 404%Z
   \/ (failing w OpInterfacesGet = None /\ interfaces w !! (resourceGroup, name) = None) ->
   run handle (resourceNetworkInterfaceApplicationSecurityGroupAssociationRead d) w
   = Some ((SetId "" d, None), w, [existT _ (InterfacesGet resourceGroup name "")]))
  /\ (forall status,
        failing w OpInterfacesGet = Some status ->
        status <> 404%Z ->
        run handle (resourceNetworkInterfaceApplicationSecurityGroupAssociationRead d) w
        = Some ((d, Some (ErrRetrievingNetworkInterface name resourceGroup
                            {| sdkStatus := status |})), w,
                [existT _ (InterfacesGet resourceGroup name "")])).
Proof.
  intros Hsplit Hparse.
  unfold resourceNetworkInterfaceApplicationSecurityGroupAssociationRead.
  rewrite Hsplit. cbn [length Nat.eqb negb nth]. rewrite Hparse.
  fold name resourceGroup.
  rewrite run_bind, run_trigger. cbn [handle]. split.
  - intros [Hget|[Hget Hnone]].
    + rewrite Hget. cbn. rewrite not_found_404. reflexivity.
    + rewrite Hget, Hnone. cbn. rewrite not_found_404. reflexivity.
  - intros status Hget Hother. rewrite Hget. cbn.
    rewrite (not_found_other status Hother). reflexivity.
Qed.
End AssociationRead.

Lemma read_association_reflects_membership_witness :
  run handle (resourceNetworkInterfaceApplicationSecurityGroupAssociationRead
                Examples.association) (Examples.serviceWith [Examples.asg2])
  = Some ((if bool_decide (Examples.asg1
                           ∈ applicationSecurityGroupIDs
                               (parseFieldsFromNetworkInterface
                                  {| IPConfigurations :=
                                       Some {| ApplicationSecurityGroups := [Examples.asg2] |} |}))
           then SetField "network_interface_id" (default "" (ID (Examples.nicWith [Examples.asg2])))
                  (SetField "application_security_group_id" Examples.asg1 Examples.association)
           else SetId "" Examples.association,
           None), Examples.serviceWith [Examples.asg2],
          [existT _ (InterfacesGet "rg1" "nic1" "")]).
Proof.
  apply (read_association_reflects_membership Examples.association Examples.nic1ID
           Examples.nic1 Examples.asg1 (Examples.serviceWith [Examples.asg2])
           (Examples.nicWith [Examples.asg2])).
  - vm_compute. reflexivity.
  - vm_compute. reflexivity.
  - reflexivity.
  - vm_compute. reflexivity.
  - reflexivity.
Defined.

Lemma read_association_parent_gone_witness :
  run handle (resourceNetworkInterfaceApplicationSecurityGroupAssociationRead
                Examples.association) Examples.emptyService
  = Some ((SetId "" Examples.association, None), Examples.emptyService,
          [existT _ (InterfacesGet "rg1" "nic1" "")]).
Proof.
  apply (proj1 (read_association_parent_gone Examples.association Examples.nic1ID
                  Examples.nic1 Examples.asg1 Examples.emptyService
                  ltac:(vm_compute; reflexivity) ltac:(vm_compute; reflexivity))).
  right. split; reflexivity.
Defined.

(** *** Create followed by Delete or by a second Create *)

Section AssociationCompose.
Variables (d : ResourceData) (id : ResourceID).
Let networkInterfaceId := Get d "network_interface_id".
Let applicationSecurityGroupId := Get d "application_security_group_id".
Let name := PathAt id "networkInterfaces".
Let resourceGroup := ResourceGroup id.

(** Create on an interface that is there and does not list the id, from a
    free lock and with ids that hold no separator. *)
Lemma create_run (w : World) (nic : Interface) (groups : list string) :
  ParseAzureResourceID networkInterfaceId = Some id ->
  interfaces w !! (resourceGroup, name) = Some nic ->
  InterfacePropertiesFormat nic
    = Some {| IPConfigurations := Some {| ApplicationSecurityGroups := groups |} |} ->
  applicationSecurityGroupId ∉ groups ->
  (forall op, failing w op = None) ->
  lockKey name networkInterfaceResourceName ∉ held w ->
  ContainsByte networkInterfaceId pipe = false ->
  ContainsByte applicationSecurityGroupId pipe = false ->
  exists d1 t,
    run handle (resourceNetworkInterfaceApplicationSecurityGroupAssociationCreate d) w
    = Some ((d1, None),
            setInterfaces
              (<[(resourceGroup, name) :=
                   withGroups nic (groups ++ [applicationSecurityGroupId])]>
                 (interfaces w)) w,
            t)
    /\ Id d1 = Sprintf_pipe networkInterfaceId applicationSecurityGroupId.
Proof.
  intros Hparse Hnic Hprops Hnin Hok Hfree Ha Hb.
  unfold resourceNetworkInterfaceApplicationSecurityGroupAssociationCreate.
  fold networkInterfaceId applicationSecurityGroupId. rewrite Hparse.
  fold name resourceGroup.
  rewrite (run_locked _ _ _ _ Hfree).
  destruct (create_locked d id
              (setHeld ({[lockKey name networkInterfaceResourceName]} ∪ held w) w)
              nic groups Hparse Hnic Hprops Hnin Hok)
    as (d1 & err & t & Hrun & Hid & _ & Herr).
  fold networkInterfaceId applicationSecurityGroupId name resourceGroup in Hrun, Hid, Herr.
  rewrite Hrun, (Herr Ha Hb), (released w _ _ Hfree). eauto.
Qed.

Lemma filter_appended (groups : list string) (v : string) :
  v ∉ groups -> filter (fun x => x <> v) (groups ++ [v]) = groups.
Proof.
  intros Hnin. rewrite filter_app, (filter_absent groups v Hnin).
  rewrite filter_cons, decide_False by auto. cbn. apply app_nil_r.
Qed.

(** X4: Delete undoes Create.  On an interface that is there and does not
    list the id, Create succeeds and the Delete of what it left behind
    succeeds too, and the interface's list is then the one before Create:
    the entries it had, in their order. *)
Theorem create_then_delete_restores_list (w : World) (nic : Interface)
    (groups : list string) :
  ParseAzureResourceID networkInterfaceId = Some id ->
  interfaces w !! (resourceGroup, name) = Some nic ->
  InterfacePropertiesFormat nic
    = Some {| IPConfigurations := Some {| ApplicationSecurityGroups := groups |} |} ->
  applicationSecurityGroupId ∉ groups ->
  (forall op, failing w op = None) ->
  lockKey name networkInterfaceResourceName ∉ held w ->
  ContainsByte networkInterfaceId pipe = false ->
  ContainsByte applicationSecurityGroupId pipe = false ->
  exists d1 w1 t1 t2,
    run handle (resourceNetworkInterfaceApplicationSecurityGroupAssociationCreate d) w
    = Some ((d1, None), w1, t1)
    /\ run handle (resourceNetworkInterfaceApplicationSecurityGroupAssociationDelete d1) w1
       = Some ((d1, None),
               setInterfaces (<[(resourceGroup, name) := withGroups nic groups]> (interfaces w)) w,
               t2).
Proof.
  intros Hparse Hnic Hprops Hnin Hok Hfree Ha Hb.
  destruct (create_run w nic groups Hparse Hnic Hprops Hnin Hok Hfree Ha Hb)
    as (d1 & t1 & Hcreate & Hid).
  destruct (delete_run d1 id networkInterfaceId applicationSecurityGroupId
              (setInterfaces
                 (<[(resourceGroup, name) :=
                      withGroups nic (groups ++ [applicationSecurityGroupId])]>
                    (interfaces w)) w)
              (withGroups nic (groups ++ [applicationSecurityGroupId]))
              (groups ++ [applicationSecurityGroupId]))
    as (t2 & Hdelete).
  - rewrite Hid. apply Split_Sprintf_pipe; assumption.
  - exact Hparse.
  - cbn. apply lookup_insert_eq.
  - reflexivity.
  - exact Hok.
  - exact Hfree.
  - eexists d1, _, t1, t2. split; [exact Hcreate|].
    rewrite Hdelete. rewrite (filter_appended groups _ Hnin).
    unfold setInterfaces, withGroups. cbn. rewrite insert_insert_eq. reflexivity.
Qed.

(** X5: Create is not idempotent.  Once Create has succeeded, a second
    Create from the same configuration returns the import error, writes
    nothing and leaves the service as the first Create left it. *)
Theorem create_twice_is_import_error (w : World) (nic : Interface)
    (groups : list string) :
  ParseAzureResourceID networkInterfaceId = Some id ->
  interfaces w !! (resourceGroup, name) = Some nic ->
  InterfacePropertiesFormat nic
    = Some {| IPConfigurations := Some {| ApplicationSecurityGroups := groups |} |} ->
  applicationSecurityGroupId ∉ groups ->
  (forall op, failing w op = None) ->
  lockKey name networkInterfaceResourceName ∉ held w ->
  ContainsByte networkInterfaceId pipe = false ->
  ContainsByte applicationSecurityGroupId pipe = false ->
  exists d1 w1 t1,
    run handle (resourceNetworkInterfaceApplicationSecurityGroupAssociationCreate d) w
    = Some ((d1, None), w1, t1)
    /\ run handle (resourceNetworkInterfaceApplicationSecurityGroupAssociationCreate d) w1
       = Some ((d, Some (ImportAsExistsError
                           "azurerm_network_interface_application_security_group_association"
                           (Sprintf_pipe networkInterfaceId applicationSecurityGroupId))),
               w1,
               [existT _ (LockByName name networkInterfaceResourceName);
                existT _ (InterfacesGet resourceGroup name "");
                existT _ (UnlockByName name networkInterfaceResourceName)]).
Proof.
  intros Hparse Hnic Hprops Hnin Hok Hfree Ha Hb.
  destruct (create_run w nic groups Hparse Hnic Hprops Hnin Hok Hfree Ha Hb)
    as (d1 & t1 & Hcreate & Hid).
  eexists d1, _, t1. split; [exact Hcreate|].
  set (w1 := setInterfaces _ w).
  assert (Hfree1 : lockKey name networkInterfaceResourceName ∉ held w1) by exact Hfree.
  unfold resourceNetworkInterfaceApplicationSecurityGroupAssociationCreate.
  fold networkInterfaceId applicationSecurityGroupId. rewrite Hparse.
  fold name resourceGroup.
  rewrite (run_locked _ _ _ _ Hfree1).
  unfold associationCreateLocked.
  rewrite run_bind, run_trigger. cbn [handle]. cbn [failing setHeld interfaces].
  subst w1. cbn [failing setInterfaces interfaces]. rewrite Hok, lookup_insert_eq. cbn.
  assert (Hin : SliceContainsValue (groups ++ [applicationSecurityGroupId])
                  applicationSecurityGroupId = true).
  { apply SliceContainsValue_elem_of, elem_of_app. right. apply list_elem_of_here. }
  rewrite Hin. cbn. rewrite (unlock_lock w _ Hfree). reflexivity.
Qed.

(** X6: when the service refuses the write, Create returns the update
    error with the identifier not set; the service holds what it held and
    the lock is released. *)
Theorem create_refused_write_changes_nothing (w : World) (nic : Interface)
    (groups : list string) (status : Z) :
  ParseAzureResourceID networkInterfaceId = Some id ->
  interfaces w !! (resourceGroup, name) = Some nic ->
  InterfacePropertiesFormat nic
    = Some {| IPConfigurations := Some {| ApplicationSecurityGroups := groups |} |} ->
  applicationSecurityGroupId ∉ groups ->
  failing w OpInterfacesGet = None ->
  failing w OpInterfacesCreateOrUpdate = Some status ->
  lockKey name networkInterfaceResourceName ∉ held w ->
  run handle (resourceNetworkInterfaceApplicationSecurityGroupAssociationCreate d) w
  = Some ((d, Some (ErrUpdatingAssociation name resourceGroup {| sdkStatus := status |})),
          w,
          [existT _ (LockByName name networkInterfaceResourceName);
           existT _ (InterfacesGet resourceGroup name "");
           existT _ (InterfacesCreateOrUpdate resourceGroup name
                       (withGroups nic (groups ++ [applicationSecurityGroupId])));
           existT _ (UnlockByName name networkInterfaceResourceName)]).
Proof.
  intros Hparse Hnic Hprops Hnin Hget Hput Hfree.
  unfold resourceNetworkInterfaceApplicationSecurityGroupAssociationCreate.
  fold networkInterfaceId applicationSecurityGroupId. rewrite Hparse.
  fold name resourceGroup.
  rewrite (run_locked _ _ _ _ Hfree).
  unfold associationCreateLocked.
  rewrite run_bind, run_trigger. cbn [handle]. cbn [failing setHeld interfaces].
  rewrite Hget, Hnic. cbn. rewrite Hprops. cbn.
  destruct (SliceContainsValue groups applicationSecurityGroupId) eqn:Hc.
  { apply SliceContainsValue_elem_of in Hc. contradiction. }
  cbn. rewrite Hput. cbn.
  rewrite (unlock_lock w _ Hfree). destruct w; reflexivity.
Qed.
End AssociationCompose.

Lemma create_then_delete_restores_list_witness :
  exists d1 w1 t1 t2,
    run handle (resourceNetworkInterfaceApplicationSecurityGroupAssociationCreate
                  Examples.newAssociation) (Examples.serviceWith [Examples.asg2])
    = Some ((d1, None), w1, t1)
    /\ run handle (resourceNetworkInterfaceApplicationSecurityGroupAssociationDelete d1) w1
       = Some ((d1, None),
               setInterfaces
                 (<[("rg1", "nic1") := withGroups (Examples.nicWith [Examples.asg2]) [Examples.asg2]]>
                    (interfaces (Examples.serviceWith [Examples.asg2])))
                 (Examples.serviceWith [Examples.asg2]),
               t2).
Proof.
  apply (create_then_delete_restores_list Examples.newAssociation Examples.nic1ID
           (Examples.serviceWith [Examples.asg2]) (Examples.nicWith [Examples.asg2])
           [Examples.asg2]).
  - vm_compute. reflexivity.
  - vm_compute. reflexivity.
  - reflexivity.
  - intros [Heq|Hin]%elem_of_cons; [discriminate | now apply elem_of_nil in Hin].
  - reflexivity.
  - apply not_elem_of_empty.
  - vm_compute. reflexivity.
  - vm_compute. reflexivity.
Defined.

Lemma create_twice_is_import_error_witness :
  exists d1 w1 t1,
    run handle (resourceNetworkInterfaceApplicationSecurityGroupAssociationCreate
                  Examples.newAssociation) (Examples.serviceWith [])
    = Some ((d1, None), w1, t1)
    /\ run handle (resourceNetworkInterfaceApplicationSecurityGroupAssociationCreate
                     Examples.newAssociation) w1
       = Some ((Examples.newAssociation,
                Some (ImportAsExistsError
                        "azurerm_network_interface_application_security_group_association"
                        (Sprintf_pipe Examples.nic1 Examples.asg1))),
               w1,
               [existT _ (LockByName "nic1" networkInterfaceResourceName);
                existT _ (InterfacesGet "rg1" "nic1" "");
                existT _ (UnlockByName "nic1" networkInterfaceResourceName)]).
Proof.
  apply (create_twice_is_import_error Examples.newAssociation Examples.nic1ID
           (Examples.serviceWith []) (Examples.nicWith []) []).
  - vm_compute. reflexivity.
  - vm_compute. reflexivity.
  - reflexivity.
  - apply not_elem_of_nil.
  - reflexivity.
  - apply not_elem_of_empty.
  - vm_compute. reflexivity.
  - vm_compute. reflexivity.
Defined.

Lemma create_refused_write_changes_nothing_witness :
  let w := {| subscription := "s1";
              interfaces := {[ ("rg1", "nic1") := Examples.nicWith [] ]};
              authorizations := ∅;
              failing := fun op => match op with
                                   | OpInterfacesCreateOrUpdate => Some 409%Z
                                   | _ => None
                                   end;
              held := ∅ |} in
  run handle (resourceNetworkInterfaceApplicationSecurityGroupAssociationCreate
                Examples.newAssociation) w
  = Some ((Examples.newAssociation,
           Some (ErrUpdatingAssociation "nic1" "rg1" {| sdkStatus := 409 |})),
          w,
          [existT _ (LockByName "nic1" networkInterfaceResourceName);
           existT _ (InterfacesGet "rg1" "nic1" "");
           existT _ (InterfacesCreateOrUpdate "rg1" "nic1"
                       (withGroups (Examples.nicWith []) [Examples.asg1]));
           existT _ (UnlockByName "nic1" networkInterfaceResourceName)]).
Proof.
  intros w.
  apply (create_refused_write_changes_nothing Examples.newAssociation Examples.nic1ID
           w (Examples.nicWith []) [] 409%Z).
  - vm_compute. reflexivity.
  - vm_compute. reflexivity.
  - reflexivity.
  - apply not_elem_of_nil.
  - reflexivity.
  - reflexivity.
  - apply not_elem_of_empty.
Defined.

(** *** Authorizations *)

(** X7: Read of an authorization takes no lock and writes nothing to the
    service.  When the service holds the authorization, Read sets the three
    name fields from the identifier and the key and use status from the
    answer; when the fetch observes NotFound it clears the identifier and
    returns nil; a fetch that fails in another way is an error. *)
Theorem read_authorization_outcomes (d : ResourceData) (w : World) (id : ResourceID) :
  let resourceGroup := ResourceGroup id in
  let circuitName := PathAt id "expressRouteCircuits" in
  let name := PathAt id "authorizations" in
  ParseAzureResourceID (Id d) = Some id ->
  (forall auth,
      failing w OpAuthsGet = None ->
      authorizations w !! (resourceGroup, circuitName, name) = Some auth ->
      let d1 := SetField "express_route_circuit_name" circuitName
                  (SetField "resource_group_name" resourceGroup
                     (SetField "name" name d)) in
      run handle (resourceExpressRouteCircuitAuthorizationRead d) w
      = Some ((match AuthorizationPropertiesFormat auth with
               | Some props =>
                   SetField "authorization_use_status" (AuthorizationUseStatus props)
                     (SetField "authorization_key" (default "" (AuthorizationKey props)) d1)
               | None => d1
               end, None), w,
              [existT _ (ExpressRouteAuthsGet resourceGroup circuitName name)]))
  /\ (failing w OpAuthsGet = Some 404%Z
      \/ (failing w OpAuthsGet = None
          /\ authorizations w !! (resourceGroup, circuitName, name) = None) ->
      run handle (resourceExpressRouteCircuitAuthorizationRead d) w
      = Some ((SetId "" d, None), w,
              [existT _ (ExpressRouteAuthsGet resourceGroup circuitName name)]))
  /\ (forall status,
        failing w OpAuthsGet = Some status ->
        status <> 404%Z ->
        run handle (resourceExpressRouteCircuitAuthorizationRead d) w
        = Some ((d, Some (ErrRetrievingAuthorization name circuitName resourceGroup
                            {| sdkStatus := status |})), w,
                [existT _ (ExpressRouteAuthsGet resourceGroup circuitName name)])).
Proof.
  intros resourceGroup circuitName name Hparse.
  unfold resourceExpressRouteCircuitAuthorizationRead. rewrite Hparse.
  fold resourceGroup circuitName name.
  rewrite run_bind, run_trigger. cbn [handle]. split; [|split].
  - intros auth Hget Hauth. rewrite Hget, Hauth. cbn.
    destruct (AuthorizationPropertiesFormat auth); reflexivity.
  - intros [Hget|[Hget Hnone]].
    + rewrite Hget. cbn. rewrite not_found_404. reflexivity.
    + rewrite Hget, Hnone. cbn. rewrite not_found_404. reflexivity.
  - intros status Hget Hother. rewrite Hget. cbn.
    rewrite (not_found_other status Hother). reflexivity.
Qed.

Lemma read_authorization_outcomes_witness :
  run handle (resourceExpressRouteCircuitAuthorizationRead Examples.authorization)
      Examples.emptyService
  = Some ((SetId "" Examples.authorization, None), Examples.emptyService,
          [existT _ (ExpressRouteAuthsGet "rg1" "c1" "a1")]).
Proof.
  refine (proj1 (proj2 (read_authorization_outcomes Examples.authorization
                          Examples.emptyService Examples.auth1ID _)) _).
  - vm_compute. reflexivity.
  - right. split; reflexivity.
Defined.

(** Read of an authorization never answers the import error and never
    changes the shared state. *)
Lemma read_authorization_run (d : ResourceData) (w : World) :
  exists d' err t,
    run handle (resourceExpressRouteCircuitAuthorizationRead d) w = Some ((d', err), w, t)
    /\ (forall resourceName id, err <> Some (ImportAsExistsError resourceName id)).
Proof.
  unfold resourceExpressRouteCircuitAuthorizationRead.
  destruct (ParseAzureResourceID (Id d)) as [id|];
    [|eexists _, _, _; split; [reflexivity|discriminate]].
  rewrite run_bind, run_trigger. cbn [handle].
  destruct (failing w OpAuthsGet) as [status|].
  - cbn. destruct (ResponseWasNotFound _); cbn; eexists _, _, _;
      (split; [reflexivity|discriminate]).
  - destruct (authorizations w !! _) as [auth|]; cbn.
    + eexists _, _, _; split; [reflexivity|discriminate].
    + destruct (ResponseWasNotFound _); cbn; eexists _, _, _;
        (split; [reflexivity|discriminate]).
Qed.

(** X8: the existence check of Create runs for a new resource only.  When
    the resource is not new, the first call after the lock is the write,
    whatever the service holds under the name: the write replaces it, and
    the import error cannot come back. *)
Theorem create_authorization_not_new_overwrites (d : ResourceData) (w : World) :
  let name := Get d "name" in
  let resourceGroup := Get d "resource_group_name" in
  let circuitName := Get d "express_route_circuit_name" in
  IsNewResource d = false ->
  (forall op, failing w op = None) ->
  lockKey circuitName expressRouteCircuitResourceName ∉ held w ->
  let properties := Some {| AuthorizationKey := None; AuthorizationUseStatus := "" |} in
  exists d' err t,
    run handle (resourceExpressRouteCircuitAuthorizationCreate d) w
    = Some ((d', err),
            setAuthorizations
              (<[(resourceGroup, circuitName, name) :=
                   {| AuthorizationResponse := None;
                      AuthorizationID :=
                        Some (authorizationPath w resourceGroup circuitName name);
                      AuthorizationPropertiesFormat := properties |}]>
                 (authorizations w)) w,
            existT _ (LockByName circuitName expressRouteCircuitResourceName)
              :: existT _ (ExpressRouteAuthsCreateOrUpdate resourceGroup circuitName name
                             {| AuthorizationResponse := None; AuthorizationID := None;
                                AuthorizationPropertiesFormat := properties |})
              :: t)
    /\ (forall resourceName id, err <> Some (ImportAsExistsError resourceName id)).
Proof.
  intros name resourceGroup circuitName Hold Hok Hfree properties.
  unfold resourceExpressRouteCircuitAuthorizationCreate.
  fold name resourceGroup circuitName.
  rewrite (run_locked _ _ _ _ Hfree).
  unfold authorizationCreateLocked, authorizationImportCheck. rewrite Hold.
  rewrite run_bind. cbn [run]. rewrite run_bind, run_trigger. cbn [handle].
  cbn [failing setHeld authorizations].
  rewrite Hok. cbn. rewrite Hok. cbn. rewrite Hok. cbn.
  rewrite lookup_insert_eq. cbn.
  match goal with
  | |- context [run handle (resourceExpressRouteCircuitAuthorizationRead ?d1) ?w1] =>
      destruct (read_authorization_run d1 w1) as (d' & err & t & Hrun & Herr)
  end.
  rewrite Hrun. cbn.
  eexists d', err, _. split; [|exact Herr].
  rewrite (unlock_lock w _ Hfree). destruct w; reflexivity.
Qed.

Lemma create_authorization_not_new_overwrites_witness :
  let d := {| Id := Examples.auth1; values := values Examples.newAuthorization;
              maps := ∅; IsNewResource := false; TimeoutDelete := 180 |} in
  let properties := Some {| AuthorizationKey := None; AuthorizationUseStatus := "" |} in
  exists d' err t,
    run handle (resourceExpressRouteCircuitAuthorizationCreate d)
        Examples.serviceWithAuthorization
    = Some ((d', err),
            setAuthorizations
              (<[("rg1", "c1", "a1") :=
                   {| AuthorizationResponse := None;
                      AuthorizationID :=
                        Some (authorizationPath Examples.serviceWithAuthorization
                                "rg1" "c1" "a1");
                      AuthorizationPropertiesFormat := properties |}]>
                 (authorizations Examples.serviceWithAuthorization))
              Examples.serviceWithAuthorization,
            existT _ (LockByName "c1" expressRouteCircuitResourceName)
              :: existT _ (ExpressRouteAuthsCreateOrUpdate "rg1" "c1" "a1"
                             {| AuthorizationResponse := None; AuthorizationID := None;
                                AuthorizationPropertiesFormat := properties |})
              :: t)
    /\ (forall resourceName id, err <> Some (ImportAsExistsError resourceName id)).
Proof.
  intros d.
  apply (create_authorization_not_new_overwrites d Examples.serviceWithAuthorization).
  - reflexivity.
  - reflexivity.
  - apply not_elem_of_empty.
Defined.

(** X9: Delete undoes Create of an authorization.  For a new resource
    whose name the service does not hold, and whose identifier as the
    service gives it parses back to the configured names, Create returns
    nil and records that identifier; the Delete of what it left behind
    returns nil and the service holds what it held before Create. *)
Theorem create_then_delete_authorization (d : ResourceData) (w : World)
    (id : ResourceID) :
  let name := Get d "name" in
  let resourceGroup := Get d "resource_group_name" in
  let circuitName := Get d "express_route_circuit_name" in
  IsNewResource d = true ->
  authorizations w !! (resourceGroup, circuitName, name) = None ->
  ParseAzureResourceID (authorizationPath w resourceGroup circuitName name) = Some id ->
  ResourceGroup id = resourceGroup ->
  PathAt id "expressRouteCircuits" = circuitName ->
  PathAt id "authorizations" = name ->
  (forall op, failing w op = None) ->
  lockKey circuitName expressRouteCircuitResourceName ∉ held w ->
  exists d1 w1 t1 t2,
    run handle (resourceExpressRouteCircuitAuthorizationCreate d) w
    = Some ((d1, None), w1, t1)
    /\ Id d1 = authorizationPath w resourceGroup circuitName name
    /\ authorizations w1 !! (resourceGroup, circuitName, name) <> None
    /\ run handle (resourceExpressRouteCircuitAuthorizationDelete d1) w1
       = Some ((d1, None), w, t2).
Proof.
  intros name resourceGroup circuitName Hnew Hnone Hparse Hrg Hcircuit Hname Hok Hfree.
  unfold resourceExpressRouteCircuitAuthorizationCreate.
  fold name resourceGroup circuitName.
  rewrite (run_locked _ _ _ _ Hfree).
  unfold authorizationCreateLocked, authorizationImportCheck. rewrite Hnew.
  rewrite !run_bind, run_trigger. cbn [handle].
  cbn [failing setHeld authorizations].
  rewrite Hok, Hnone. cbn. rewrite not_found_404. cbn.
  rewrite Hok. cbn. rewrite Hok. cbn. rewrite Hok. cbn.
  rewrite lookup_insert_eq. cbn.
  unfold resourceExpressRouteCircuitAuthorizationRead at 1. cbn [Id SetId].
  change (authorizationPath (setHeld _ w) resourceGroup circuitName name)
    with (authorizationPath w resourceGroup circuitName name).
  rewrite Hparse, Hrg, Hcircuit, Hname.
  rewrite run_bind, run_trigger. cbn [handle].
  cbn [failing setHeld setAuthorizations authorizations].
  rewrite Hok, lookup_insert_eq. cbn.
  rewrite (unlock_lock w _ Hfree).
  eexists _, _, _, _. split; [reflexivity|]. split; [reflexivity|].
  split; [cbn; rewrite lookup_insert_eq; discriminate|].
  unfold resourceExpressRouteCircuitAuthorizationDelete. cbn [Id SetField SetId].
  rewrite Hparse, Hrg, Hcircuit, Hname.
  match goal with
  | |- run handle _ ?w1 = _ =>
      assert (Hfree1 : lockKey circuitName expressRouteCircuitResourceName ∉ held w1)
        by exact Hfree;
      rewrite (run_locked _ _ _ w1 Hfree1)
  end.
  unfold authorizationDeleteLocked.
  rewrite run_bind, run_trigger. cbn [handle].
  cbn [failing setHeld setAuthorizations authorizations].
  rewrite Hok, lookup_insert_eq. cbn. rewrite Hok. cbn.
  rewrite (unlock_lock w _ Hfree), (delete_insert_id _ _ _ Hnone).
  destruct w; reflexivity.
Qed.

Lemma create_then_delete_authorization_witness :
  exists d1 w1 t1 t2,
    run handle (resourceExpressRouteCircuitAuthorizationCreate Examples.newAuthorization)
        Examples.emptyService
    = Some ((d1, None), w1, t1)
    /\ Id d1 = authorizationPath Examples.emptyService "rg1" "c1" "a1"
    /\ authorizations w1 !! ("rg1", "c1", "a1") <> None
    /\ run handle (resourceExpressRouteCircuitAuthorizationDelete d1) w1
       = Some ((d1, None), Examples.emptyService, t2).
Proof.
  apply (create_then_delete_authorization Examples.newAuthorization
           Examples.emptyService Examples.auth1ID).
  - reflexivity.
  - reflexivity.
  - vm_compute. reflexivity.
  - reflexivity.
  - reflexivity.
  - reflexivity.
  - reflexivity.
  - apply not_elem_of_empty.
Defined.
End NetworkMoreSpec.

(** ** Package [compute]: what ends the Delete of a dedicated host *)

Module ComputeMoreSpec.
Import GoStrings Provider PluginSdk Compute ProgFacts ComputeSpec.

(** Delete with the delete call and its wait through: the rest is the wait
    for the state. *)
Lemma delete_through_wait (d : ResourceData) (w w' : World) (id : DedicatedHostId) r t :
  DedicatedHostID (Id d) = Some id ->
  deleteFailing w = None ->
  waitFailing w = None \/ waitFailing w = Some 404%Z ->
  run handle (waitForState (deleteStateConf d id) (TimeoutDelete d) 0) w = Some (r, w', t) ->
  run handle (resourceDedicatedHostDelete d) w
  = Some ((d, match r.2 with
              | Some err => Some (ErrWaitingToDisappear id err)
              | None => None
              end), w',
          existT _ (HostsDelete (ResourceGroup id) (HostGroupName id) (HostName id))
            :: existT _ (WaitForCompletionRef {| FutureResponse := Some 202%Z |}) :: t).
Proof.
  intros Hparse Hdel Hwait Hrun.
  unfold resourceDedicatedHostDelete. rewrite Hparse.
  rewrite run_bind, run_trigger. cbn [handle]. rewrite Hdel.
  cbn -[deleteStateConf WaitForStateContext].
  destruct Hwait as [Hwait|Hwait]; rewrite Hwait;
    cbn -[deleteStateConf WaitForStateContext];
    rewrite ?NetworkSpec.not_found_404;
    cbn -[deleteStateConf WaitForStateContext];
    rewrite run_bind; unfold WaitForStateContext;
    change (Timeout (deleteStateConf d id)) with (TimeoutDelete d);
    rewrite Hrun; destruct r as [res [err|]]; cbn; rewrite app_nil_r; reflexivity.
Qed.

(** X10: a failure of the delete call ends Delete with an error whatever
    its status, NotFound included, and the host is not read; a failure of
    the wait for the delete ends it with an error unless it is NotFound. *)
Theorem delete_call_failure_is_fatal (d : ResourceData) (w : World)
    (id : DedicatedHostId) (status : Z) :
  DedicatedHostID (Id d) = Some id ->
  (deleteFailing w = Some status ->
   run handle (resourceDedicatedHostDelete d) w
   = Some ((d, Some (ErrDeleting id {| sdkStatus := status |})), w,
           [existT _ (HostsDelete (ResourceGroup id) (HostGroupName id) (HostName id))]))
  /\ (deleteFailing w = None ->
      waitFailing w = Some status ->
      status <> 404%Z ->
      run handle (resourceDedicatedHostDelete d) w
      = Some ((d, Some (ErrWaitingForDeleting id {| sdkStatus := status |})), w,
              [existT _ (HostsDelete (ResourceGroup id) (HostGroupName id) (HostName id));
               existT _ (WaitForCompletionRef {| FutureResponse := Some 202%Z |})])).
Proof.
  intros Hparse. unfold resourceDedicatedHostDelete. rewrite Hparse.
  rewrite run_bind, run_trigger. cbn [handle]. split.
  - intros Hdel. rewrite Hdel. reflexivity.
  - intros Hdel Hwait Hother. rewrite Hdel.
    cbn -[deleteStateConf WaitForStateContext]. rewrite Hwait.
    cbn -[deleteStateConf WaitForStateContext].
    unfold ResponseWasNotFound. rewrite bool_decide_false by congruence.
    reflexivity.
Qed.

Lemma delete_call_failure_is_fatal_witness :
  let w := {| deleteFailing := Some 404%Z; waitFailing := None;
              hostStatusAt := fun _ => 404%Z; reads := 0 |} in
  run handle (resourceDedicatedHostDelete Examples.dedicatedHost) w
  = Some ((Examples.dedicatedHost,
           Some (ErrDeleting Examples.host1ID {| sdkStatus := 404 |})), w,
          [existT _ (HostsDelete "rg1" "g1" "h1")]).
Proof.
  intros w.
  refine (proj1 (delete_call_failure_is_fatal Examples.dedicatedHost w
                   Examples.host1ID 404%Z _) _).
  - vm_compute. reflexivity.
  - reflexivity.
Defined.

Section Poller.
Variables (d : ResourceData) (id : DedicatedHostId).

(** While every read finds the host, the wait uses up its budget. *)
Lemma wait_all_pending (budget : nat) :
  forall (targetOccurence : nat) (w : World),
    (forall i, reads w <= i < reads w + budget -> hostStatusAt w i = 200%Z)%nat ->
    exists w' t,
      run handle (waitForState (deleteStateConf d id) budget targetOccurence) w
      = Some ((None, Some TimedOut), w', t)
      /\ reads w' = (reads w + budget)%nat.
Proof.
  induction budget as [|budget IH]; intros c w Hall.
  - eexists _, _. split; [reflexivity|]. lia.
  - rewrite (wait_pending d id w budget c) by (apply Hall; lia).
    destruct (IH 0%nat (afterRead w)) as (w' & t & -> & Hreads).
    + intros i Hi. apply Hall. cbn [reads afterRead] in Hi. lia.
    + eexists _, _. split; [reflexivity|]. cbn [reads afterRead] in Hreads. lia.
Qed.

(** While every read misses the host, the wait ends well with the read
    that completes the twenty. *)
Lemma wait_all_absent (budget : nat) :
  forall (targetOccurence : nat) (w : World),
    (targetOccurence < 20)%nat ->
    (20 - targetOccurence <= budget)%nat ->
    (forall i, reads w <= i < reads w + (20 - targetOccurence) ->
               hostStatusAt w i = 404%Z)%nat ->
    exists w' t,
      run handle (waitForState (deleteStateConf d id) budget targetOccurence) w
      = Some ((Some (ValString "NotFound"), None), w', t)
      /\ reads w' = (reads w + (20 - targetOccurence))%nat.
Proof.
  induction budget as [|budget IH]; intros c w Hc Hbudget Hall; [lia|].
  assert (H404 : hostStatusAt w (reads w) = 404%Z) by (apply Hall; lia).
  destruct (decide (S c < 20)%nat) as [Hlt|Hge].
  - rewrite (wait_target d id w budget c H404 Hlt).
    destruct (IH (S c) (afterRead w) Hlt) as (w' & t & -> & Hreads).
    + lia.
    + intros i Hi. apply Hall. cbn [reads afterRead] in Hi. lia.
    + eexists _, _. split; [reflexivity|]. cbn [reads afterRead] in Hreads. lia.
  - rewrite (wait_done d id w budget c H404) by lia.
    eexists _, _. split; [reflexivity|]. cbn [reads afterRead]. lia.
Qed.

(** A wait that ends well saw no read fail. *)
Lemma wait_success_reads (budget : nat) :
  forall (targetOccurence : nat) (w w' : World) res t,
    run handle (waitForState (deleteStateConf d id) budget targetOccurence) w = Some ((res, None), w', t) ->
    forall i, (reads w <= i < reads w')%nat ->
              hostStatusAt w i = 200%Z \/ hostStatusAt w i = 404%Z.
Proof.
  induction budget as [|budget IH]; intros c w w' res t Hrun i Hi.
  - discriminate Hrun.
  - destruct (decide (hostStatusAt w (reads w) = 200%Z)) as [H200|H200].
    { rewrite (wait_pending d id w budget c H200) in Hrun.
      destruct (run handle (waitForState (deleteStateConf d id) budget 0) (afterRead w))
        as [[[r w1] t1]|] eqn:Hrec; [|discriminate].
      injection Hrun as -> -> _.
      destruct (decide (i = reads w)) as [->|Hne]; [now left|].
      apply (IH 0%nat (afterRead w) w' res t1 Hrec). cbn [reads afterRead]. lia. }
    destruct (decide (hostStatusAt w (reads w) = 404%Z)) as [H404|H404].
    { destruct (decide (S c < 20)%nat) as [Hlt|Hge].
      - rewrite (wait_target d id w budget c H404 Hlt) in Hrun.
        destruct (run handle (waitForState (deleteStateConf d id) budget (S c)) (afterRead w))
          as [[[r w1] t1]|] eqn:Hrec; [|discriminate].
        injection Hrun as -> -> _.
        destruct (decide (i = reads w)) as [->|Hne]; [now right|].
        apply (IH (S c) (afterRead w) w' res t1 Hrec). cbn [reads afterRead]. lia.
      - rewrite (wait_done d id w budget c H404 ltac:(lia)) in Hrun.
        injection Hrun as _ <- _. cbn [reads afterRead] in Hi.
        replace i with (reads w) by lia. now right. }
    rewrite (wait_failed d id w budget c H200 H404) in Hrun. discriminate.
Qed.
End Poller.

(** X11: a host that never disappears.  When the delete call is accepted
    and every read within the timeout finds the host, Delete ends with the
    timeout error, having read the host exactly as often as the delete
    timeout has refresh rounds. *)
Theorem delete_times_out_while_host_exists (d : ResourceData) (w : World)
    (id : DedicatedHostId) :
  DedicatedHostID (Id d) = Some id ->
  deleteFailing w = None ->
  waitFailing w = None \/ waitFailing w = Some 404%Z ->
  (forall i, reads w <= i < reads w + TimeoutDelete d -> hostStatusAt w i = 200%Z)%nat ->
  exists w' t,
    run handle (resourceDedicatedHostDelete d) w
    = Some ((d, Some (ErrWaitingToDisappear id TimedOut)), w', t)
    /\ reads w' = (reads w + TimeoutDelete d)%nat.
Proof.
  intros Hparse Hdel Hwait Hall.
  destruct (wait_all_pending d id (TimeoutDelete d) 0%nat w Hall) as (w' & t & Hrun & Hreads).
  pose proof (delete_through_wait d w w' id _ t Hparse Hdel Hwait Hrun) as Hdelete.
  eexists _, _. split; [exact Hdelete | exact Hreads].
Qed.

(** X12: a host that is gone at once.  When the delete call is accepted,
    the delete timeout has room for twenty refresh rounds and the next
    twenty reads miss the host, Delete returns nil after exactly twenty
    reads; with a shorter timeout it cannot return nil at all. *)
Theorem delete_of_absent_host_takes_twenty_reads (d : ResourceData) (w : World)
    (id : DedicatedHostId) :
  DedicatedHostID (Id d) = Some id ->
  deleteFailing w = None ->
  waitFailing w = None \/ waitFailing w = Some 404%Z ->
  ((20 <= TimeoutDelete d)%nat ->
   (forall i, reads w <= i < reads w + 20 -> hostStatusAt w i = 404%Z)%nat ->
   exists w' t,
     run handle (resourceDedicatedHostDelete d) w = Some ((d, None), w', t)
     /\ reads w' = (reads w + 20)%nat)
  /\ ((TimeoutDelete d < 20)%nat ->
      forall d' w' t, run handle (resourceDedicatedHostDelete d) w <> Some ((d', None), w', t)).
Proof.
  intros Hparse Hdel Hwait. split.
  - intros Hroom Hall.
    destruct (wait_all_absent d id (TimeoutDelete d) 0%nat w) as (w' & t & Hrun & Hreads);
      [lia | lia | exact Hall |].
    pose proof (delete_through_wait d w w' id _ t Hparse Hdel Hwait Hrun) as Hdelete.
    eexists _, _. split; [exact Hdelete | exact Hreads].
  - intros Hshort d' w' t Hrun.
    destruct (wait_total d id (TimeoutDelete d) 0%nat w) as (r & w1 & t1 & Hw & Hle).
    pose proof (delete_through_wait d w w1 id r t1 Hparse Hdel Hwait Hw) as Hdelete.
    rewrite Hdelete in Hrun. destruct r as [res [err|]]; [discriminate|].
    destruct (wait_success d id (TimeoutDelete d) 0%nat w w1 res t1 ltac:(lia) Hw)
      as [_ [[Heq _]|(Hge & _)]]; lia.
Qed.

(** X13: a Delete that returns nil met no failure but NotFound: the delete
    call was accepted, its wait ended well or with NotFound, and every read
    of the host answered that it exists or that it is not found. *)
Theorem delete_success_saw_no_failure (d : ResourceData) (w w' : World) d' t :
  run handle (resourceDedicatedHostDelete d) w = Some ((d', None), w', t) ->
  deleteFailing w = None
  /\ (waitFailing w = None \/ waitFailing w = Some 404%Z)
  /\ forall i, (reads w <= i < reads w')%nat ->
               hostStatusAt w i = 200%Z \/ hostStatusAt w i = 404%Z.
Proof.
  intros Hrun.
  destruct (DedicatedHostID (Id d)) as [id|] eqn:Hparse.
  2:{ unfold resourceDedicatedHostDelete in Hrun. rewrite Hparse in Hrun. discriminate. }
  destruct (deleteFailing w) as [status|] eqn:Hdel.
  { unfold resourceDedicatedHostDelete in Hrun. rewrite Hparse in Hrun.
    rewrite run_bind, run_trigger in Hrun. cbn [handle] in Hrun.
    rewrite Hdel in Hrun. discriminate. }
  split; [reflexivity|].
  assert (Hwait : waitFailing w = None \/ waitFailing w = Some 404%Z).
  { destruct (waitFailing w) as [status|] eqn:Hwait; [|now left].
    destruct (decide (status = 404%Z)) as [->|Hother]; [now right|].
    unfold resourceDedicatedHostDelete in Hrun. rewrite Hparse in Hrun.
    rewrite run_bind, run_trigger in Hrun. cbn [handle] in Hrun.
    rewrite Hdel in Hrun. cbn -[deleteStateConf WaitForStateContext] in Hrun.
    rewrite Hwait in Hrun. cbn -[deleteStateConf WaitForStateContext] in Hrun.
    rewrite (NetworkSpec.not_found_other status Hother) in Hrun. discriminate. }
  split; [exact Hwait|].
  destruct (wait_total d id (TimeoutDelete d) 0%nat w) as (r & w1 & t1 & Hw & _).
  pose proof (delete_through_wait d w w1 id r t1 Hparse Hdel Hwait Hw) as Hdelete.
  rewrite Hdelete in Hrun. destruct r as [res [err|]]; [discriminate|].
  cbn in Hrun. injection Hrun as _ <- _.
  exact (wait_success_reads d id (TimeoutDelete d) 0%nat w w1 res t1 Hw).
Qed.

Lemma delete_times_out_while_host_exists_witness :
  let w := {| deleteFailing := None; waitFailing := None;
              hostStatusAt := fun _ => 200%Z; reads := 0 |} in
  exists w' t,
    run handle (resourceDedicatedHostDelete Examples.dedicatedHostShortTimeout) w
    = Some ((Examples.dedicatedHostShortTimeout,
             Some (ErrWaitingToDisappear Examples.host1ID TimedOut)), w', t)
    /\ reads w' = (reads w + 27)%nat.
Proof.
  intros w.
  apply (delete_times_out_while_host_exists Examples.dedicatedHostShortTimeout w
           Examples.host1ID).
  - vm_compute. reflexivity.
  - reflexivity.
  - left. reflexivity.
  - intros i Hi. reflexivity.
Defined.

Lemma delete_of_absent_host_takes_twenty_reads_witness :
  let w := {| deleteFailing := None; waitFailing := Some 404%Z;
              hostStatusAt := fun _ => 404%Z; reads := 0 |} in
  exists w' t,
    run handle (resourceDedicatedHostDelete Examples.dedicatedHost) w
    = Some ((Examples.dedicatedHost, None), w', t)
    /\ reads w' = (reads w + 20)%nat.
Proof.
  intros w.
  refine (proj1 (delete_of_absent_host_takes_twenty_reads Examples.dedicatedHost w
                   Examples.host1ID _ _ _) _ _).
  - vm_compute. reflexivity.
  - reflexivity.
  - right. reflexivity.
  - cbn. lia.
  - intros i Hi. reflexivity.
Defined.

Lemma delete_success_saw_no_failure_witness :
  exists w' t,
    run handle (resourceDedicatedHostDelete Examples.dedicatedHost)
        Examples.flappingService
    = Some ((Examples.dedicatedHost, None), w', t)
    /\ deleteFailing Examples.flappingService = None
    /\ (waitFailing Examples.flappingService = None
        \/ waitFailing Examples.flappingService = Some 404%Z)
    /\ forall i, (reads Examples.flappingService <= i < reads w')%nat ->
                 hostStatusAt Examples.flappingService i = 200%Z
                 \/ hostStatusAt Examples.flappingService i = 404%Z.
Proof.
  eexists _, _. split; [vm_compute; reflexivity|].
  eapply (delete_success_saw_no_failure Examples.dedicatedHost Examples.flappingService).
  vm_compute. reflexivity.
Defined.
End ComputeMoreSpec.
